(** * Measurement Management API: a shallow embedding of [main.py] and
    [schemas.py], and the properties of its request handlers.

    The handlers are modelled in a small state-and-exception monad over an
    in-memory picture of the document store.  Every store call is recorded
    in a trace, so that statements such as "rejected before any store
    access" are statements about the trace. *)

From Stdlib Require Import ZArith NArith String Ascii List Bool Lia.
From Stdlib Require Import DecimalString.
From Stdlib Require Import Floats.SpecFloat.
From stdpp Require Import base option list gmap strings fin_maps.

Local Open Scope string_scope.
Local Open Scope Z_scope.

(** ** Identifiers of the store ([bson.ObjectId])

    The identifiers the store hands out are 12-byte values, numbered here
    below [16 ^ 24]; [str] renders one as 24 lower-case hexadecimal digits.
    The constructor [ObjectId(s)] takes a string of 24 characters and reads
    it with [bytes.fromhex], which reads pairs of hexadecimal digits (either
    case) and skips ASCII white space in front of a pair and at the end.  So
    24 hexadecimal digits give a 12-byte identifier, and 24 characters with
    white space among the pairs give an identifier of fewer bytes, which is
    none of the store's: those are numbered from [16 ^ 24] up.  The library
    is not part of the repository; the model follows its code.

    Below, a string is called well formed when [is_valid] accepts it and
    malformed when it does not. *)
Module ObjectId.

Definition t : Type := N.

Definition hex_digit (c : ascii) : option N :=
  let n := N_of_ascii c in
  if ((48 <=? n) && (n <=? 57))%N then Some (n - 48)%N
  else if ((97 <=? n) && (n <=? 102))%N then Some (n - 87)%N
  else if ((65 <=? n) && (n <=? 70))%N then Some (n - 55)%N
  else None.

(** The number written by a string of hexadecimal digits and nothing else. *)
Fixpoint from_hex (s : string) (acc : N) : option N :=
  match s with
  | EmptyString => Some acc
  | String c s' =>
      match hex_digit c with
      | Some d => from_hex s' (16 * acc + d)%N
      | None => None
      end
  end.

(** [Py_ISSPACE]: tab, line feed, vertical tab, form feed, carriage return,
    space. *)
Definition is_space (c : ascii) : bool :=
  let n := N_of_ascii c in
  (((9 <=? n) && (n <=? 13)) || (n =? 32))%N.

(** [bytes.fromhex(s)]: white space is skipped where a byte may start; a
    byte is two adjacent hexadecimal digits.  The result is the number of
    bytes read and their value, most significant byte first. *)
Fixpoint fromhex (s : string) (count : nat) (acc : N) : option (nat * N) :=
  match s with
  | EmptyString => Some (count, acc)
  | String c s' =>
      if is_space c then fromhex s' count acc
      else
        match hex_digit c, s' with
        | Some top, String c' s'' =>
            match hex_digit c' with
            | Some bot => fromhex s'' (S count) (256 * acc + (16 * top + bot))%N
            | None => None
            end
        | _, _ => None
        end
  end.

(** The identifier made of [count] bytes of value [v]: itself when it has
    the 12 bytes of a store identifier, otherwise a number from [16 ^ 24]
    up that tells the byte strings apart. *)
Definition of_bytes (count : nat) (v : N) : t :=
  if Nat.eqb count 12 then v
  else (16 ^ 24 + 2 ^ (8 * N.of_nat count) + v)%N.

(** [ObjectId(oid)] on a [str]: 24 characters that [bytes.fromhex] reads. *)
Definition parse (s : string) : option t :=
  if Nat.eqb (String.length s) 24 then
    match fromhex s 0 0%N with
    | Some (count, v) => Some (of_bytes count v)
    | None => None
    end
  else None.

(** [ObjectId.is_valid(oid)]: false on an empty value, otherwise whether
    the constructor accepts it. *)
Definition is_valid (s : string) : bool :=
  match s with
  | EmptyString => false
  | _ => match parse s with Some _ => true | None => false end
  end.

Definition digit_char (d : N) : ascii :=
  if (d <? 10)%N then ascii_of_N (48 + d) else ascii_of_N (87 + d).

Fixpoint to_hex (len : nat) (n : N) (acc : string) : string :=
  match len with
  | O => acc
  | S len' => to_hex len' (n / 16)%N (String (digit_char (n mod 16)%N) acc)
  end.

(** [str(oid)] for the 12-byte identifiers that documents hold. *)
Definition to_string (o : t) : string := to_hex 24 o EmptyString.

End ObjectId.

(** ** Documents

    The store holds loosely typed documents.  The values this system ever
    stores are the field types of the three schemas plus the store's own
    identifier type. *)
Inductive value : Type :=
  | VNone
  | VInt (n : Z)
  | VFloat (f : spec_float)
  | VStr (s : string)
  | VObjectId (o : ObjectId.t).

#[global] Instance spec_float_eq_dec : EqDecision spec_float.
Proof. solve_decision. Defined.

#[global] Instance value_eq_dec : EqDecision value.
Proof. solve_decision. Defined.

Abbreviation document := (gmap string value).

(** Python truthiness of a value ([if v:], [v or default]). *)
Definition truthy (v : value) : bool :=
  match v with
  | VNone => false
  | VInt n => negb (n =? 0)
  | VFloat (S754_zero _) => false
  | VFloat _ => true
  | VStr s => negb (String.eqb s "")
  | VObjectId _ => true
  end.

(** [isinstance(v, ObjectId)] branch of [serialize_doc]. *)
Definition serialize_value (v : value) : value :=
  match v with
  | VObjectId o => VStr (ObjectId.to_string o)
  | _ => v
  end.

(** [serialize_doc]: [None] and the empty dict are returned as they are;
    otherwise a new dict is filled key by key. *)
Definition serialize_doc (doc : option document) : option document :=
  match doc with
  | None => None
  | Some d =>
      if bool_decide (d = ∅) then Some d
      else Some (map_fold (λ k v out, <[k := serialize_value v]> out) ∅ d)
  end.

(** ** The schemas of [schemas.py]

    A request body reaches a schema after JSON decoding, as a record whose
    fields are absent ([None]) or hold a value of the field's Python type.
    [validate] is what the model class then does with it: required fields,
    the closed sets of the [Literal] fields, the [ge] bounds and the
    defaults. *)

Inductive error_type : Type :=
  | missing
  | literal_error
  | greater_than_equal.

Abbreviation error_details := (list (string * error_type)).

Definition required {A} (field : string) (v : option A) : error_details + A :=
  match v with
  | Some a => inr a
  | None => inl [(field, missing)]
  end.

Definition literal {A} (field : string) (of_str : string → option A) (s : string)
  : error_details + A :=
  match of_str s with
  | Some a => inr a
  | None => inl [(field, literal_error)]
  end.

(** [Optional[float] = Field(None, ge=bound)] *)
Definition optional_float_ge (field : string) (bound : spec_float) (v : option spec_float)
  : error_details + option spec_float :=
  match v with
  | None => inr None
  | Some f => if SFleb bound f then inr (Some f) else inl [(field, greater_than_equal)]
  end.

(** [int = Field(dflt, ge=bound)] *)
Definition int_ge (field : string) (dflt bound : Z) (v : option Z) : error_details + Z :=
  match v with
  | None => inr dflt
  | Some n => if bound <=? n then inr n else inl [(field, greater_than_equal)]
  end.

Definition errors_of {A} (r : error_details + A) : error_details :=
  match r with
  | inl e => e
  | inr _ => []
  end.

Definition opt_str (v : option string) : value :=
  match v with
  | Some s => VStr s
  | None => VNone
  end.

Definition opt_float (v : option spec_float) : value :=
  match v with
  | Some f => VFloat f
  | None => VNone
  end.

Module Project.

Inductive ProjectType : Type := Immeuble | Residence | Villa | Ecole | Hotel | Autre.

Definition ProjectType_str (t : ProjectType) : string :=
  match t with
  | Immeuble => "Immeuble"
  | Residence => "Résidence"
  | Villa => "Villa"
  | Ecole => "École"
  | Hotel => "Hôtel"
  | Autre => "Autre"
  end.

Definition ProjectType_of_str (s : string) : option ProjectType :=
  find (λ t, String.eqb (ProjectType_str t) s)
       [Immeuble; Residence; Villa; Ecole; Hotel; Autre].

Record t : Type := Make {
  name : string;
  project_type : ProjectType;
  location : option string;
  contact_name : option string;
  contact_phone : option string;
  photo_url : option string
}.

Record raw : Type := Raw {
  raw_name : option string;
  raw_project_type : option string;
  raw_location : option string;
  raw_contact_name : option string;
  raw_contact_phone : option string;
  raw_photo_url : option string
}.

Definition validate (i : raw) : error_details + t :=
  let r_name := required "name" (raw_name i) in
  let r_type := match raw_project_type i with
                | None => inr Autre
                | Some s => literal "project_type" ProjectType_of_str s
                end in
  match r_name, r_type with
  | inr n, inr ty =>
      inr (Make n ty (raw_location i) (raw_contact_name i) (raw_contact_phone i)
                (raw_photo_url i))
  | _, _ => inl (errors_of r_name ++ errors_of r_type)%list
  end.

Definition model_dump (p : t) : document :=
  <["name" := VStr (name p)]>
  (<["project_type" := VStr (ProjectType_str (project_type p))]>
  (<["location" := opt_str (location p)]>
  (<["contact_name" := opt_str (contact_name p)]>
  (<["contact_phone" := opt_str (contact_phone p)]>
  (<["photo_url" := opt_str (photo_url p)]> ∅))))).

End Project.

Module Building.

Record t : Type := Make {
  project_id : string;
  name : string;
  description : option string
}.

Record raw : Type := Raw {
  raw_project_id : option string;
  raw_name : option string;
  raw_description : option string
}.

Definition validate (i : raw) : error_details + t :=
  let r_pid := required "project_id" (raw_project_id i) in
  let r_name := required "name" (raw_name i) in
  match r_pid, r_name with
  | inr pid, inr n => inr (Make pid n (raw_description i))
  | _, _ => inl (errors_of r_pid ++ errors_of r_name)%list
  end.

Definition model_dump (b : t) : document :=
  <["project_id" := VStr (project_id b)]>
  (<["name" := VStr (name b)]>
  (<["description" := opt_str (description b)]> ∅)).

End Building.

Module Element.

Inductive ElementType : Type := porte | placard | dressing.

Definition ElementType_str (t : ElementType) : string :=
  match t with
  | porte => "porte"
  | placard => "placard"
  | dressing => "dressing"
  end.

Definition ElementType_of_str (s : string) : option ElementType :=
  find (λ t, String.eqb (ElementType_str t) s) [porte; placard; dressing].

Inductive Opening : Type := poussant | tirant.

Definition Opening_str (o : Opening) : string :=
  match o with
  | poussant => "poussant"
  | tirant => "tirant"
  end.

Definition Opening_of_str (s : string) : option Opening :=
  find (λ o, String.eqb (Opening_str o) s) [poussant; tirant].

Record t : Type := Make {
  project_id : string;
  building_id : option string;
  element_type : ElementType;
  configuration : option string;
  opening : option Opening;
  height_mm : option spec_float;
  width_mm : option spec_float;
  depth_mm : option spec_float;
  thickness_mm : option spec_float;
  quantity : Z;
  notes_text : option string;
  notes_audio_url : option string;
  photo_url : option string
}.

Record raw : Type := Raw {
  raw_project_id : option string;
  raw_building_id : option string;
  raw_element_type : option string;
  raw_configuration : option string;
  raw_opening : option string;
  raw_height_mm : option spec_float;
  raw_width_mm : option spec_float;
  raw_depth_mm : option spec_float;
  raw_thickness_mm : option spec_float;
  raw_quantity : option Z;
  raw_notes_text : option string;
  raw_notes_audio_url : option string;
  raw_photo_url : option string
}.

Definition zero : spec_float := S754_zero false.

Definition validate (i : raw) : error_details + t :=
  let r_pid := required "project_id" (raw_project_id i) in
  let r_type := match required "element_type" (raw_element_type i) with
                | inr s => literal "element_type" ElementType_of_str s
                | inl e => inl e
                end in
  let r_open := match raw_opening i with
                | None => inr None
                | Some s => match literal "opening" Opening_of_str s with
                            | inr o => inr (Some o)
                            | inl e => inl e
                            end
                end in
  let r_h := optional_float_ge "height_mm" zero (raw_height_mm i) in
  let r_w := optional_float_ge "width_mm" zero (raw_width_mm i) in
  let r_d := optional_float_ge "depth_mm" zero (raw_depth_mm i) in
  let r_t := optional_float_ge "thickness_mm" zero (raw_thickness_mm i) in
  let r_q := int_ge "quantity" 1 1 (raw_quantity i) in
  match r_pid, r_type, r_open, r_h, r_w, r_d, r_t, r_q with
  | inr pid, inr ty, inr o, inr h, inr w, inr d, inr th, inr q =>
      inr (Make pid (raw_building_id i) ty (raw_configuration i) o h w d th q
                (raw_notes_text i) (raw_notes_audio_url i) (raw_photo_url i))
  | _, _, _, _, _, _, _, _ =>
      inl (errors_of r_pid ++ errors_of r_type ++ errors_of r_open ++ errors_of r_h
           ++ errors_of r_w ++ errors_of r_d ++ errors_of r_t ++ errors_of r_q)%list
  end.

Definition model_dump (e : t) : document :=
  <["project_id" := VStr (project_id e)]>
  (<["building_id" := opt_str (building_id e)]>
  (<["element_type" := VStr (ElementType_str (element_type e))]>
  (<["configuration" := opt_str (configuration e)]>
  (<["opening" := opt_str (Opening_str <$> opening e)]>
  (<["height_mm" := opt_float (height_mm e)]>
  (<["width_mm" := opt_float (width_mm e)]>
  (<["depth_mm" := opt_float (depth_mm e)]>
  (<["thickness_mm" := opt_float (thickness_mm e)]>
  (<["quantity" := VInt (quantity e)]>
  (<["notes_text" := opt_str (notes_text e)]>
  (<["notes_audio_url" := opt_str (notes_audio_url e)]>
  (<["photo_url" := opt_str (photo_url e)]> ∅)))))))))))).

End Element.

(** ** The store and the monad of the handlers *)

(** The store of the model is one that is reached and answers every call.
    The one failure of a store call that the model has is the one a request
    can cause by itself: a document holding an integer beyond 8 bytes, which
    the driver refuses to encode.  A lost connection or a server error is
    outside the model; the results on what a writing or listing handler
    answers take the answer as a hypothesis where that matters. *)

(** The two-stage pipeline of [project_summary]:
    [{"$match": match_}, {"$group": {"_id": group_id, "count": {"$sum": "$" + sum_field}}}],
    where [group_id] maps each key of the group identifier to the field it
    reads. *)
Record pipeline : Type := Pipeline {
  match_ : document;
  group_id : list (string * string);
  sum_field : string
}.

(** One output row of the [$group] stage: [{"_id": {...}, "count": n}]. *)
Record group_row : Type := GroupRow {
  row_id : document;
  row_count : Z
}.

(** A call made on the store. *)
Inductive event : Type :=
  | EvFindOne (coll : string) (oid : ObjectId.t)
  | EvFind (coll : string) (query : document)
  | EvInsertOne (coll : string) (doc : document)
  | EvAggregate (coll : string) (p : pipeline).

(** [db] maps a collection name to its documents in insertion order;
    [next_oid] is the next identifier the store hands out; [trace] lists
    the store calls made so far, oldest first. *)
Record world : Type := World {
  db : gmap string (list document);
  next_oid : N;
  trace : list event
}.

Inductive exn : Type :=
  | HTTPException (status_code : Z) (detail : string)
  | RequestValidationError (errors : error_details)
  | PyError (cls : string) (msg : string).

Inductive result (A : Type) : Type :=
  | Ok (a : A)
  | Raise (e : exn).
Arguments Ok {A} a.
Arguments Raise {A} e.

Definition M (A : Type) : Type := world → result A * world.

Definition ret {A} (a : A) : M A := λ w, (Ok a, w).

Definition bind {A B} (m : M A) (f : A → M B) : M B := λ w,
  match m w with
  | (Ok a, w') => f a w'
  | (Raise e, w') => (Raise e, w')
  end.

Notation "'do' x <- m ; k" := (bind m (λ x, k))
  (at level 20, x name, m at level 100, k at level 200, only parsing).

Definition raise {A} (e : exn) : M A := λ w, (Raise e, w).

(** [try: body except HTTPException: raise except Exception as e: h e] and
    [try: body except Exception as e: h e] *)
Definition try_except {A} (body : M A) (h : exn → M A) : M A := λ w,
  match body w with
  | (Ok a, w') => (Ok a, w')
  | (Raise e, w') => h e w'
  end.

Definition log (ev : event) : M unit := λ w,
  (Ok tt, World (db w) (next_oid w) (trace w ++ [ev])%list).

Definition collection (w : world) (coll : string) : list document :=
  default [] (db w !! coll).

(** An exact-match query: every pair of the query occurs in the document. *)
Definition matches (query d : document) : bool := bool_decide (query ⊆ d).

Definition has_id (oid : ObjectId.t) (d : document) : bool :=
  bool_decide (d !! "_id" = Some (VObjectId oid)).

(** The first document of the collection with the given identifier. *)
Definition lookup_id (w : world) (coll : string) (oid : ObjectId.t) : option document :=
  head (filter (λ d, has_id oid d = true) (collection w coll)).

(** [db[coll].find_one({"_id": oid})] *)
Definition find_one (coll : string) (oid : ObjectId.t) : M (option document) :=
  do _ <- log (EvFindOne coll oid);
  λ w, (Ok (lookup_id w coll oid), w).

(** [db[coll].find(query)], read to the end *)
Definition find_all (coll : string) (query : document) : M (list document) :=
  do _ <- log (EvFind coll query);
  λ w, (Ok (filter (λ d, matches query d = true) (collection w coll)), w).

(** What the driver can encode: an integer must fit in 8 bytes. *)
Definition int64 (n : Z) : bool := (- 2 ^ 63 <=? n) && (n <? 2 ^ 63).

Definition value_encodable (v : value) : bool :=
  match v with
  | VInt n => int64 n
  | _ => true
  end.

Definition encodable (doc : document) : bool :=
  bool_decide (map_Forall (λ _ v, value_encodable v = true) doc).

(** [db[coll].insert_one(doc)]: the driver encodes the document, raising
    [OverflowError] on an integer beyond 8 bytes before anything is sent;
    the store assigns the identifier.  The message is that of the driver's
    compiled encoder; the properties below do not depend on its text. *)
Definition insert_one (coll : string) (doc : document) : M ObjectId.t :=
  do _ <- log (EvInsertOne coll doc);
  if negb (encodable doc)
  then raise (PyError "OverflowError" "MongoDB can only handle up to 8-byte ints")
  else
    λ w, let oid := next_oid w in
         (Ok oid,
          World (<[coll := (collection w coll ++ [<["_id" := VObjectId oid]> doc])%list]> (db w))
                (N.succ oid) (trace w)).

(** The [$group] stage.  The identifier of a document's group holds the
    keys whose field the document has; [$sum] adds the integer values and
    skips everything else. *)
Definition group_key (spec : list (string * string)) (d : document) : document :=
  fold_right (λ '(k, field) acc,
                match d !! field with
                | Some v => <[k := v]> acc
                | None => acc
                end) ∅ spec.

Definition sum_operand (field : string) (d : document) : Z :=
  match d !! field with
  | Some (VInt n) => n
  | _ => 0
  end.

Fixpoint add_to_group (k : document) (n : Z) (acc : list group_row) : list group_row :=
  match acc with
  | [] => [GroupRow k n]
  | r :: acc' =>
      if decide (row_id r = k) then GroupRow k (row_count r + n) :: acc'
      else r :: add_to_group k n acc'
  end.

Definition group_sum (p : pipeline) (docs : list document) : list group_row :=
  fold_left (λ acc d, add_to_group (group_key (group_id p) d) (sum_operand (sum_field p) d) acc)
            docs [].

(** [db[coll].aggregate(pipeline)], read to the end *)
Definition aggregate (coll : string) (p : pipeline) : M (list group_row) :=
  do _ <- log (EvAggregate coll p);
  λ w, (Ok (group_sum p (filter (λ d, matches (match_ p) d = true) (collection w coll))), w).

(** Modelled from the spec: [database.create_document] is not among the
    sources.  Spec 4.4 and 6: a point insert of the validated record, which
    yields the newly assigned identifier (the handlers pass it to
    [ObjectId(...)], so it is the identifier's string form). *)
Definition create_document (coll : string) (data : document) : M string :=
  do oid <- insert_one coll data;
  ret (ObjectId.to_string oid).

(** Modelled from the spec: [database.get_documents] is not among the
    sources.  Spec 4.5 and 6: the equality filters are passed to the store
    as an exact-match query and the result is the matching documents in
    store iteration order. *)
Definition get_documents (coll : string) (filter_dict : option document)
  : M (list document) :=
  find_all coll (default ∅ filter_dict).

(** [ObjectId(s)] as the handlers call it: raises on a malformed string. *)
Definition ObjectId_new (s : string) : M ObjectId.t :=
  match ObjectId.parse s with
  | Some o => ret o
  | None => raise (PyError "InvalidId" (s +:+ " is not a valid ObjectId, it must be a 12-byte input or a 24-character hex string"))
  end.

(** [PyObjectId.validate(v)] on a string *)
Definition PyObjectId_validate (v : string) : M ObjectId.t :=
  if negb (ObjectId.is_valid v) then raise (PyError "ValueError" "Invalid ObjectId")
  else ObjectId_new v.

(** ** The handlers of [main.py] *)

Definition str_Z (n : Z) : string := NilZero.string_of_int (Z.to_int n).

(** [str(e)] *)
Definition str_exn (e : exn) : string :=
  match e with
  | HTTPException c d => str_Z c +:+ ": " +:+ d
  | RequestValidationError _ => "validation error"
  | PyError _ msg => msg
  end.

(** [try: body except Exception as e: raise HTTPException(status_code=500, detail=str(e))] *)
Definition except_Exception {A} (body : M A) : M A :=
  try_except body (λ e, raise (HTTPException 500 (str_exn e))).

(** [try: body except HTTPException: raise
     except Exception as e: raise HTTPException(status_code=500, detail=str(e))] *)
Definition except_HTTPException_raise {A} (body : M A) : M A :=
  try_except body (λ e,
    match e with
    | HTTPException _ _ => raise e
    | _ => raise (HTTPException 500 (str_exn e))
    end).

(** [not doc] for the result of [find_one] *)
Definition doc_truthy (doc : option document) : bool :=
  match doc with
  | None => false
  | Some d => negb (bool_decide (d = ∅))
  end.

(** [if s:] for an optional string *)
Definition str_truthy (s : option string) : bool :=
  match s with
  | None => false
  | Some s => negb (String.eqb s "")
  end.

Definition serialize_all (docs : list document) : list (option document) :=
  map (λ d, serialize_doc (Some d)) docs.

Definition create_project (payload : Project.t) : M (option document) :=
  except_Exception (
    do inserted_id <- create_document "project" (Project.model_dump payload);
    do oid <- ObjectId_new inserted_id;
    do doc <- find_one "project" oid;
    ret (serialize_doc doc)).

Definition list_projects : M (list (option document)) :=
  except_Exception (
    do docs <- get_documents "project" None;
    ret (serialize_all docs)).

Definition get_project (project_id : string) : M (option document) :=
  except_HTTPException_raise (
    do oid <- PyObjectId_validate project_id;
    do doc <- find_one "project" oid;
    if negb (doc_truthy doc) then raise (HTTPException 404 "Project not found")
    else ret (serialize_doc doc)).

Definition create_building (payload : Building.t) : M (option document) :=
  let _pid := Building.project_id payload in
  if negb (ObjectId.is_valid _pid) then raise (HTTPException 400 "Invalid project_id")
  else
    do poid <- ObjectId_new _pid;
    do parent <- find_one "project" poid;
    if negb (doc_truthy parent) then raise (HTTPException 404 "Parent project not found")
    else
      except_Exception (
        do inserted_id <- create_document "building" (Building.model_dump payload);
        do oid <- ObjectId_new inserted_id;
        do doc <- find_one "building" oid;
        ret (serialize_doc doc)).

Definition list_buildings (project_id : string) : M (list (option document)) :=
  except_HTTPException_raise (
    if negb (ObjectId.is_valid project_id) then raise (HTTPException 400 "Invalid project_id")
    else
      do docs <- get_documents "building" (Some {["project_id" := VStr project_id]});
      ret (serialize_all docs)).

(** The [if payload.building_id:] block of [create_element]. *)
Definition check_building (building_id : option string) : M unit :=
  if str_truthy building_id then
    let bid := default "" building_id in
    if negb (ObjectId.is_valid bid) then raise (HTTPException 400 "Invalid building_id")
    else
      do boid <- ObjectId_new bid;
      do parent <- find_one "building" boid;
      if negb (doc_truthy parent) then raise (HTTPException 404 "Parent building not found")
      else ret tt
  else ret tt.

Definition create_element (payload : Element.t) : M (option document) :=
  if negb (ObjectId.is_valid (Element.project_id payload))
  then raise (HTTPException 400 "Invalid project_id")
  else
    do poid <- ObjectId_new (Element.project_id payload);
    do parent <- find_one "project" poid;
    if negb (doc_truthy parent) then raise (HTTPException 404 "Parent project not found")
    else
      do _ <- check_building (Element.building_id payload);
      except_Exception (
        do inserted_id <- create_document "element" (Element.model_dump payload);
        do oid <- ObjectId_new inserted_id;
        do doc <- find_one "element" oid;
        ret (serialize_doc doc)).

(** The query of [list_elements]: [{"project_id": project_id}], with
    [query["building_id"] = building_id] added under [if building_id:]. *)
Definition list_elements (project_id : string) (building_id : option string)
  : M (list (option document)) :=
  except_HTTPException_raise (
    if negb (ObjectId.is_valid project_id) then raise (HTTPException 400 "Invalid project_id")
    else
      let query : document := {["project_id" := VStr project_id]} in
      do query <-
        (if str_truthy building_id then
           let bid := default "" building_id in
           if negb (ObjectId.is_valid bid) then raise (HTTPException 400 "Invalid building_id")
           else ret (<["building_id" := VStr bid]> query)
         else ret query);
      do docs <- get_documents "element" (Some query);
      ret (serialize_all docs)).

(** *** Summary *)

Record summary_item : Type := SummaryItem {
  item_element_type : value;
  item_configuration : value;
  item_count : Z
}.

Record summary : Type := Summary {
  total : Z;
  items : list summary_item
}.

Definition summary_pipeline (project_id : string) : pipeline :=
  Pipeline {["project_id" := VStr project_id]}
           [("type", "element_type"); ("config", "configuration")]
           "quantity".

(** [a["_id"].get(k)] *)
Definition dict_get (d : document) (k : string) : value := default VNone (d !! k).

Definition summary_item_of (a : group_row) : summary_item :=
  SummaryItem (dict_get (row_id a) "type") (dict_get (row_id a) "config") (row_count a).

Definition sum_counts (its : list summary_item) : Z :=
  fold_left (λ acc i, acc + item_count i) its 0.

Definition project_summary (project_id : string) : M summary :=
  if negb (ObjectId.is_valid project_id) then raise (HTTPException 400 "Invalid project_id")
  else
    except_Exception (
      do agg <- aggregate "element" (summary_pipeline project_id);
      let items := map summary_item_of agg in
      let total := sum_counts items in
      ret (Summary total items)).

(** *** Request validation in front of the handlers

    The framework builds the payload from the request body with the
    handler's model class and calls the handler only when that succeeds. *)

Definition post_projects (body : Project.raw) : M (option document) :=
  match Project.validate body with
  | inl errs => raise (RequestValidationError errs)
  | inr payload => create_project payload
  end.

Definition post_buildings (body : Building.raw) : M (option document) :=
  match Building.validate body with
  | inl errs => raise (RequestValidationError errs)
  | inr payload => create_building payload
  end.

Definition post_elements (body : Element.raw) : M (option document) :=
  match Element.validate body with
  | inl errs => raise (RequestValidationError errs)
  | inr payload => create_element payload
  end.

(** The status code the client sees. *)
Definition status_of {A} (r : result A) : Z :=
  match r with
  | Ok _ => 200
  | Raise (HTTPException c _) => c
  | Raise (RequestValidationError _) => 422
  | Raise (PyError _ _) => 500
  end.

(** The error taxonomy of the handlers, by message and status. *)
Inductive error_kind : Type :=
  | ValidationError
  | InvalidIdentifier
  | ParentNotFound
  | NotFound
  | InternalStoreError.

Definition classify (e : exn) : error_kind :=
  match e with
  | RequestValidationError _ => ValidationError
  | HTTPException 400 _ => InvalidIdentifier
  | HTTPException 404 d =>
      if String.eqb d "Project not found" then NotFound else ParentNotFound
  | _ => InternalStoreError
  end.

(** *** CSV export *)

Record Response : Type := MkResponse {
  content : string;
  media_type : string;
  headers : list (string * string)
}.

(** [app.response_class]: [app] is a [fastapi.FastAPI] object.  Neither that
    class nor its base [starlette.applications.Starlette] defines an
    attribute [response_class] (it is the name Flask uses), so reading it
    raises [AttributeError]. *)
Definition app_response_class
  : M (string → string → list (string * string) → Response) :=
  raise (PyError "AttributeError" "'FastAPI' object has no attribute 'response_class'").

Definition dquote : ascii := ascii_of_nat 34.
Definition LF : ascii := ascii_of_nat 10.
Definition CR : ascii := ascii_of_nat 13.

Fixpoint string_exists (P : ascii → bool) (s : string) : bool :=
  match s with
  | EmptyString => false
  | String c s' => P c || string_exists P s'
  end.

Fixpoint string_map (f : ascii → string) (s : string) : string :=
  match s with
  | EmptyString => EmptyString
  | String c s' => f c +:+ string_map f s'
  end.

(** [s.replace("\n", " ")] *)
Definition replace_newlines (s : string) : string :=
  string_map (λ c, if Ascii.eqb c LF then " " else String c EmptyString) s.

(** The default dialect of [csv.writer]: comma, double quote, minimal
    quoting with doubled quotes, lines ended by CR LF. *)
Definition csv_special (c : ascii) : bool :=
  Ascii.eqb c "," || Ascii.eqb c dquote || Ascii.eqb c CR || Ascii.eqb c LF.

Definition csv_field (s : string) : string :=
  if string_exists csv_special s then
    String dquote
      (string_map (λ c, if Ascii.eqb c dquote then String dquote (String dquote EmptyString)
                        else String c EmptyString) s
       +:+ String dquote EmptyString)
  else s.

Fixpoint join (sep : string) (l : list string) : string :=
  match l with
  | [] => EmptyString
  | [x] => x
  | x :: l' => x +:+ sep +:+ join sep l'
  end.

Definition CRLF : string := String CR (String LF EmptyString).

Section CsvExport.

(** [repr] of a Python float, which is what [str] and the CSV writer print. *)
Variable float_repr : spec_float → string.

(** [str(v)] *)
Definition py_str (v : value) : string :=
  match v with
  | VNone => "None"
  | VInt n => str_Z n
  | VFloat f => float_repr f
  | VStr s => s
  | VObjectId o => ObjectId.to_string o
  end.

(** The text the writer puts in a cell: [None] is the empty string. *)
Definition cell_text (v : value) : string :=
  match v with
  | VNone => ""
  | _ => py_str v
  end.

(** [writer.writerow(cells)]; a row whose only cell is empty is written as
    a pair of quotes. *)
Definition writerow (cells : list value) : string :=
  match map cell_text cells with
  | [EmptyString] => String dquote (String dquote EmptyString) +:+ CRLF
  | texts => join "," (map csv_field texts) +:+ CRLF
  end.

Definition csv_header : list value :=
  [VStr "ID"; VStr "Type"; VStr "Configuration"; VStr "Ouverture"; VStr "Hauteur(mm)";
   VStr "Largeur(mm)"; VStr "Profondeur(mm)"; VStr "Épaisseur(mm)"; VStr "Quantité";
   VStr "Notes"].

(** [e.get(k, dflt)] *)
Definition get_default (e : document) (k : string) (dflt : value) : value :=
  default dflt (e !! k).

(** [(e.get("notes_text") or "").replace("\n", " ")] *)
Definition notes_cell (e : document) : M value :=
  let v := dict_get e "notes_text" in
  if truthy v then
    match v with
    | VStr s => ret (VStr (replace_newlines s))
    | _ => raise (PyError "AttributeError" "object has no attribute 'replace'")
    end
  else ret (VStr "").

Definition element_row (e : document) : M string :=
  do notes <- notes_cell e;
  ret (writerow
         [VStr (py_str (dict_get e "_id"));
          get_default e "element_type" (VStr "");
          get_default e "configuration" (VStr "");
          get_default e "opening" (VStr "");
          get_default e "height_mm" (VStr "");
          get_default e "width_mm" (VStr "");
          get_default e "depth_mm" (VStr "");
          get_default e "thickness_mm" (VStr "");
          get_default e "quantity" (VInt 1);
          notes]).

(** The [for e in elems:] loop, appending to [output]. *)
Fixpoint write_rows (elems : list document) (output : string) : M string :=
  match elems with
  | [] => ret output
  | e :: elems' =>
      do row <- element_row e;
      write_rows elems' (output +:+ row)
  end.

(** The text held by [output] after the header and the rows are written. *)
Definition write_csv (elems : list document) : M string :=
  write_rows elems (writerow csv_header).

(** The first statements of the [try] block of [export_csv], up to
    [csv_content = output.getvalue()]. *)
Definition csv_content (project_id : string) : M string :=
  do elems <- get_documents "element" (Some {["project_id" := VStr project_id]});
  write_csv elems.

Definition export_csv (project_id : string) : M Response :=
  if negb (ObjectId.is_valid project_id) then raise (HTTPException 400 "Invalid project_id")
  else
    except_Exception (
      do csv_content <- csv_content project_id;
      do response_class <- app_response_class;
      ret (response_class csv_content "text/csv"
             [("Content-Disposition",
               "attachment; filename=project_" +:+ project_id +:+ "_elements.csv")])).

End CsvExport.

(** ** Running the handlers on small stores *)

Definition empty_world : world := World ∅ 0%N [].

Definition run {A} (m : M A) (w : world) : result A := fst (m w).
Definition exec {A} (m : M A) (w : world) : world := snd (m w).

(** ** Sample stores and the notions the statements use *)

Definition sample_project : Project.t :=
  Project.Make "Tour A" Project.Autre None None None None.

(** One project, whose identifier the store printed as [pid0]. *)
Definition w1 : world := exec (create_project sample_project) empty_world.

Definition pid0 : string := "000000000000000000000000".

Definition sample_element (bid : option string) (ty : Element.ElementType)
    (cfg : option string) (q : Z) : Element.t :=
  Element.Make pid0 bid ty cfg None None None None None q None None None.

(** Eight bytes written in pairs, a space after each: 24 characters that
    are not 24 hexadecimal digits. *)
Definition spaced_id : string := "00 00 00 00 00 00 00 00 ".

Definition inserted (w : world) (coll : string) (data : document) : world :=
  World (<[coll := (collection w coll ++ [<["_id" := VObjectId (next_oid w)]> data])%list]> (db w))
        (N.succ (next_oid w)) (trace w).

Definition bid1 : string := "000000000000000000000001".
Definition bid2 : string := "000000000000000000000002".

(** One project, two buildings, and four elements: two in the first
    building, one in the second, one in none. *)
Definition w_buildings : world :=
  exec (create_building (Building.Make pid0 "Bloc B" None))
    (exec (create_building (Building.Make pid0 "Bloc A" None)) w1).

Definition w_elements : world :=
  exec (create_element (sample_element None Element.dressing (Some "L") 1))
    (exec (create_element (sample_element (Some bid2) Element.placard None 1))
      (exec (create_element (sample_element (Some bid1) Element.porte (Some "double") 4))
        (exec (create_element (sample_element (Some bid1) Element.porte (Some "simple") 2))
           w_buildings))).

(** A present value below zero. *)
Definition negative (v : option spec_float) : bool :=
  match v with
  | Some f => SFltb f Element.zero
  | None => false
  end.

Definition mm_fields : list (string * (Element.raw → option spec_float)) :=
  [("height_mm", Element.raw_height_mm); ("width_mm", Element.raw_width_mm);
   ("depth_mm", Element.raw_depth_mm); ("thickness_mm", Element.raw_thickness_mm)].

(** The request is refused at validation, the error details name the field,
    and the handler is never entered: the world is as before. *)
Definition rejected (body : Element.raw) (field : string) : Prop :=
  ∃ errs, Element.validate body = inl errs ∧
          (field, greater_than_equal) ∈ errs ∧
          ∀ w, post_elements body w = (Raise (RequestValidationError errs), w).

Definition sample_body (height : option spec_float) (quantity : option Z) : Element.raw :=
  Element.Raw (Some pid0) None (Some "porte") (Some "simple") None height None None None
              quantity None None None.

Definition minus_five : spec_float := S754_finite true 5 0.








Definition w_summary : world :=
  exec (create_element (sample_element None Element.placard None 1))
    (exec (create_element (sample_element None Element.porte (Some "simple") 3))
      (exec (create_element (sample_element None Element.porte (Some "simple") 2)) w1)).

Definition is_Ok {A} (r : result A) : bool :=
  match r with
  | Ok _ => true
  | Raise _ => false
  end.

(** A rendering of floats for the sample stores, which hold none. *)
Definition no_float_repr : spec_float → string := λ _, "".

Definition header_line : string :=
  "ID,Type,Configuration,Ouverture,Hauteur(mm),Largeur(mm),Profondeur(mm),Épaisseur(mm),Quantité,Notes"
  +:+ CRLF.

Definition unitless_header_line : string :=
  "ID,Type,Configuration,Ouverture,Hauteur,Largeur,Profondeur,Épaisseur,Quantité,Notes"
  +:+ CRLF.

(** ** Notions used by the further properties *)

(** The handler leaves the collections and the identifier counter alone. *)
Definition read_only {A} (m : M A) : Prop :=
  ∀ w, db (exec m w) = db w ∧ next_oid (exec m w) = next_oid w.

(** The world [w'] is [w] with one document, [data] under the next
    identifier, added at the end of collection [coll]. *)
Definition appended (w w' : world) (coll : string) (data : document) : Prop :=
  collection w' coll
    = (collection w coll ++ [<["_id" := VObjectId (next_oid w)]> data])%list ∧
  (∀ c, c ≠ coll → collection w' c = collection w c) ∧
  next_oid w' = N.succ (next_oid w).

Definition untouched (w w' : world) : Prop :=
  db w' = db w ∧ next_oid w' = next_oid w.

Definition nonneg (v : option spec_float) : bool :=
  match v with
  | Some f => SFleb Element.zero f
  | None => true
  end.

(** The request is refused at validation with the given error on the given
    field, and the handler is never entered. *)
Definition refused {R T} (validate : R → error_details + T)
    (post : R → M (option document)) (body : R) (field : string) (err : error_type) : Prop :=
  ∃ errs, validate body = inl errs ∧ (field, err) ∈ errs ∧
          ∀ w, post body w = (Raise (RequestValidationError errs), w).

Definition not_nan (v : option spec_float) : Prop := v ≠ Some S754_nan.

Definition sample_full_body : Element.raw :=
  Element.Raw (Some pid0) (Some "") (Some "dressing") (Some "") (Some "tirant")
              (Some (S754_zero true)) None None None None (Some "") None None.

(** ** Properties *)

Lemma serialize_fold_fmap (d : document) :
  map_fold (λ k v (out : document), <[k := serialize_value v]> out) ∅ d
  = serialize_value <$> d.
Proof.
  apply (map_fold_weak_ind (λ r m, r = serialize_value <$> m)).
  - by rewrite fmap_empty.
  - intros i x m r _ ->. by rewrite fmap_insert.
Qed.

Lemma serialize_doc_Some (d : document) :
  serialize_doc (Some d) = Some (serialize_value <$> d).
Proof.
  unfold serialize_doc. case_bool_decide as He.
  - subst d. by rewrite fmap_empty.
  - by rewrite serialize_fold_fmap.
Qed.

Example oid_roundtrip :
  ObjectId.to_string <$> ObjectId.parse "65A1B2c3d4e5f60718293a4b"
  = Some "65a1b2c3d4e5f60718293a4b".
Proof. vm_compute. reflexivity. Qed.

Example serialize_example :
  serialize_doc (Some (<["_id" := VObjectId 255%N]> (<["name" := VStr "A"]> ∅)))
  = Some (<["_id" := VStr "0000000000000000000000ff"]> (<["name" := VStr "A"]> ∅)).
Proof. vm_compute. reflexivity. Qed.

(** *** Identifiers *)

Lemma is_valid_parse (s : string) :
  ObjectId.is_valid s = true ↔ ∃ o, ObjectId.parse s = Some o.
Proof.
  unfold ObjectId.is_valid. destruct s as [|c s].
  - split; [discriminate|]. intros [o Ho]. discriminate Ho.
  - destruct (ObjectId.parse (String c s)) as [o|]; split; eauto; try discriminate.
    intros [o Ho]. discriminate Ho.
Qed.

Lemma is_valid_length (s : string) :
  ObjectId.is_valid s = true → String.length s = 24%nat.
Proof.
  intros H. apply is_valid_parse in H as [o Ho]. unfold ObjectId.parse in Ho.
  destruct (Nat.eqb (String.length s) 24) eqn:E; [|discriminate].
  by apply Nat.eqb_eq.
Qed.

Lemma is_valid_nonempty (s : string) : ObjectId.is_valid s = true → s ≠ "".
Proof. intros H ->. discriminate H. Qed.

Lemma ObjectId_new_parse (s : string) (o : ObjectId.t) (w : world) :
  ObjectId.parse s = Some o → ObjectId_new s w = (Ok o, w).
Proof. intros H. unfold ObjectId_new. by rewrite H. Qed.

(** *** Lookups *)

Lemma lookup_id_Some (w : world) (coll : string) (oid : ObjectId.t) (d : document) :
  lookup_id w coll oid = Some d →
  d ∈ collection w coll ∧ d !! "_id" = Some (VObjectId oid).
Proof.
  unfold lookup_id. intros H. apply head_Some_elem_of in H.
  apply list_elem_of_filter in H as [Hid Hin]. split; [done|].
  unfold has_id in Hid. by apply bool_decide_eq_true in Hid.
Qed.

Lemma lookup_id_truthy (w : world) (coll : string) (oid : ObjectId.t) (d : document) :
  lookup_id w coll oid = Some d → doc_truthy (Some d) = true.
Proof.
  intros H. apply lookup_id_Some in H as [_ Hid]. unfold doc_truthy.
  case_bool_decide as He; [|done]. subst d. by rewrite lookup_empty in Hid.
Qed.

Lemma bind_Ok {A B} (m : M A) (f : A → M B) (w w' : world) (a : A) :
  m w = (Ok a, w') → bind m f w = f a w'.
Proof. intros H. unfold bind. by rewrite H. Qed.

Lemma bind_Raise {A B} (m : M A) (f : A → M B) (w w' : world) (e : exn) :
  m w = (Raise e, w') → bind m f w = (Raise e, w').
Proof. intros H. unfold bind. by rewrite H. Qed.

Lemma find_one_run (coll : string) (oid : ObjectId.t) (w : world) :
  find_one coll oid w
  = (Ok (lookup_id w coll oid),
     World (db w) (next_oid w) (trace w ++ [EvFindOne coll oid])).
Proof. reflexivity. Qed.

Lemma lookup_id_None (w : world) (coll : string) (oid : ObjectId.t) :
  lookup_id w coll oid = None ↔
  ∀ d, d ∈ collection w coll → d !! "_id" ≠ Some (VObjectId oid).
Proof.
  unfold lookup_id. rewrite head_None. split.
  - intros Hnil d Hin Hid.
    eapply (filter_nil_not_elem_of _ _ d); [exact Hnil| |exact Hin].
    unfold has_id. by apply bool_decide_eq_true.
  - intros Hno. destruct (filter _ _) as [|d l] eqn:E; [done|].
    assert (d ∈ filter (λ d, has_id oid d = true) (collection w coll)) as Hin
      by (rewrite E; left).
    apply list_elem_of_filter in Hin as [Hid Hin].
    unfold has_id in Hid. apply bool_decide_eq_true in Hid.
    by destruct (Hno d Hin).
Qed.

(** *** Building creation *)

(** C1: a Building whose [project_id] is well formed and identifies no stored
    Project is answered with 404 "Parent project not found"; the store is left
    as it was, and the only store call made is the lookup of the parent (no
    insert). *)
Theorem create_building_parent_not_found (payload : Building.t) (w : world) :
  ObjectId.is_valid (Building.project_id payload) = true →
  (∀ oid d, ObjectId.parse (Building.project_id payload) = Some oid →
            d ∈ collection w "project" → d !! "_id" ≠ Some (VObjectId oid)) →
  ∃ oid, ObjectId.parse (Building.project_id payload) = Some oid ∧
    run (create_building payload) w
      = Raise (HTTPException 404 "Parent project not found") ∧
    classify (HTTPException 404 "Parent project not found") = ParentNotFound ∧
    db (exec (create_building payload) w) = db w ∧
    next_oid (exec (create_building payload) w) = next_oid w ∧
    trace (exec (create_building payload) w) = (trace w ++ [EvFindOne "project" oid])%list.
Proof.
  intros Hvalid Hnone.
  destruct (proj1 (is_valid_parse _) Hvalid) as [oid Hoid].
  exists oid. split; [done|].
  assert (lookup_id w "project" oid = None) as Hl
    by (apply lookup_id_None; intros d; by apply Hnone).
  assert (create_building payload w
          = (Raise (HTTPException 404 "Parent project not found"),
             World (db w) (next_oid w) (trace w ++ [EvFindOne "project" oid]))) as Hrun.
  { unfold create_building. rewrite Hvalid. cbn [negb].
    rewrite (bind_Ok _ _ _ _ _ (ObjectId_new_parse _ _ w Hoid)).
    rewrite (bind_Ok _ _ _ _ _ (find_one_run _ _ _)), Hl. reflexivity. }
  unfold run, exec. rewrite Hrun. done.
Qed.

Lemma create_building_parent_not_found_witness :
  ∃ oid, ObjectId.parse "ffffffffffffffffffffffff" = Some oid ∧
    run (create_building (Building.Make "ffffffffffffffffffffffff" "Bloc B" None)) w1
      = Raise (HTTPException 404 "Parent project not found") ∧
    classify (HTTPException 404 "Parent project not found") = ParentNotFound ∧
    db (exec (create_building (Building.Make "ffffffffffffffffffffffff" "Bloc B" None)) w1)
      = db w1 ∧
    next_oid (exec (create_building (Building.Make "ffffffffffffffffffffffff" "Bloc B" None)) w1)
      = next_oid w1 ∧
    trace (exec (create_building (Building.Make "ffffffffffffffffffffffff" "Bloc B" None)) w1)
      = (trace w1 ++ [EvFindOne "project" oid])%list.
Proof.
  apply (create_building_parent_not_found
           (Building.Make "ffffffffffffffffffffffff" "Bloc B" None) w1).
  - vm_compute. reflexivity.
  - intros oid d Hoid. vm_compute in Hoid. injection Hoid as <-.
    revert d. apply lookup_id_None. vm_compute. reflexivity.
Defined.

(** *** The printed form of an identifier is read back *)

Lemma hex_digit_digit_char (d : N) :
  (d < 16)%N → ObjectId.hex_digit (ObjectId.digit_char d) = Some d.
Proof.
  intros Hd.
  assert (d ∈ map N.of_nat (seq 0 16)) as Hin.
  { apply list_elem_of_fmap. exists (N.to_nat d). split; [lia|].
    apply list_elem_of_In, in_seq. lia. }
  assert (Forall (λ d, ObjectId.hex_digit (ObjectId.digit_char d) = Some d)
                 (map N.of_nat (seq 0 16))) as Hall
    by (cbn [seq map]; repeat constructor).
  rewrite Forall_forall in Hall. by apply Hall.
Qed.

Lemma length_to_hex (len : nat) (n : N) (acc : string) :
  String.length (ObjectId.to_hex len n acc) = (len + String.length acc)%nat.
Proof.
  revert n acc. induction len as [|len IH]; intros n acc; [done|].
  cbn [ObjectId.to_hex]. rewrite IH. cbn [String.length]. lia.
Qed.

Lemma from_hex_to_hex (len : nat) (n a : N) (acc : string) :
  ObjectId.from_hex (ObjectId.to_hex len n acc) a
  = ObjectId.from_hex acc (a * 16 ^ N.of_nat len + n mod 16 ^ N.of_nat len)%N.
Proof.
  revert n a acc. induction len as [|len IH]; intros n a acc.
  - cbn [ObjectId.to_hex]. f_equal. change (16 ^ N.of_nat 0)%N with 1%N.
    rewrite N.mod_1_r. lia.
  - cbn [ObjectId.to_hex]. rewrite IH. cbn [ObjectId.from_hex].
    rewrite hex_digit_digit_char by (apply N.mod_lt; lia). f_equal.
    rewrite Nat2N.inj_succ, N.pow_succ_r'.
    rewrite (N.Div0.mod_mul_r n 16 (16 ^ N.of_nat len)). lia.
Qed.

Lemma hex_digit_not_space (c : ascii) (d : N) :
  ObjectId.hex_digit c = Some d → ObjectId.is_space c = false.
Proof.
  unfold ObjectId.hex_digit, ObjectId.is_space. cbv zeta.
  generalize (N_of_ascii c). intros n.
  destruct (48 <=? n)%N eqn:E1, (n <=? 57)%N eqn:E2, (97 <=? n)%N eqn:E3,
    (n <=? 102)%N eqn:E4, (65 <=? n)%N eqn:E5, (n <=? 70)%N eqn:E6;
    cbn [andb]; try discriminate; intros _;
    rewrite ?N.leb_le, ?N.leb_gt in *;
    (destruct (9 <=? n)%N eqn:F1, (n <=? 13)%N eqn:F2, (n =? 32)%N eqn:F3;
     cbn [andb orb]; try reflexivity;
     rewrite ?N.leb_le, ?N.leb_gt, ?N.eqb_eq in *; lia).
Qed.

(** On a string of hexadecimal digits alone, [bytes.fromhex] reads the
    digits two by two. *)
Lemma fromhex_digits (k : nat) (s : string) (count : nat) (acc v : N) :
  String.length s = (2 * k)%nat →
  ObjectId.from_hex s acc = Some v →
  ObjectId.fromhex s count acc = Some ((count + k)%nat, v).
Proof.
  revert s count acc. induction k as [|k IH]; intros s count acc Hlen Hv.
  - destruct s; [|cbn in Hlen; discriminate]. cbn in *. injection Hv as <-.
    do 2 f_equal. lia.
  - destruct s as [|c1 s1]; [cbn in Hlen; discriminate|].
    destruct s1 as [|c2 s2]; [cbn in Hlen; lia|].
    cbn [ObjectId.from_hex] in Hv.
    destruct (ObjectId.hex_digit c1) as [d1|] eqn:H1; [|discriminate].
    destruct (ObjectId.hex_digit c2) as [d2|] eqn:H2; [|discriminate].
    cbn [ObjectId.fromhex]. rewrite (hex_digit_not_space _ _ H1), H1, H2.
    rewrite (IH s2 (S count) (256 * acc + (16 * d1 + d2))%N).
    + do 2 f_equal. lia.
    + cbn [String.length] in Hlen. lia.
    + rewrite <- Hv. f_equal. lia.
Qed.

Lemma parse_to_string (o : ObjectId.t) :
  ObjectId.parse (ObjectId.to_string o) = Some (o mod 16 ^ 24)%N.
Proof.
  unfold ObjectId.parse, ObjectId.to_string.
  rewrite length_to_hex. cbn [String.length Nat.add Nat.eqb].
  rewrite (fromhex_digits 12 _ 0 0%N (o mod 16 ^ 24)%N).
  - reflexivity.
  - by rewrite length_to_hex.
  - rewrite from_hex_to_hex. cbn [ObjectId.from_hex]. f_equal.
Qed.

(** *** The insert-and-read-back tail of the create handlers *)

Lemma create_document_run (coll : string) (data : document) (w : world) :
  encodable data = true →
  create_document coll data w
  = (Ok (ObjectId.to_string (next_oid w)),
     World (db (inserted w coll data)) (N.succ (next_oid w))
           (trace w ++ [EvInsertOne coll data])).
Proof.
  intros He. unfold create_document, insert_one.
  erewrite bind_Ok; [reflexivity|].
  erewrite bind_Ok; [|reflexivity]. by rewrite He.
Qed.

Lemma create_document_overflow (coll : string) (data : document) (w : world) :
  encodable data = false →
  create_document coll data w
  = (Raise (PyError "OverflowError" "MongoDB can only handle up to 8-byte ints"),
     World (db w) (next_oid w) (trace w ++ [EvInsertOne coll data])).
Proof.
  intros He. unfold create_document, insert_one.
  erewrite bind_Raise; [reflexivity|].
  erewrite bind_Ok; [|reflexivity]. by rewrite He.
Qed.

Lemma create_tail_run (coll : string) (data : document) (w : world) :
  encodable data = true →
  let w' := World (db (inserted w coll data)) (N.succ (next_oid w))
                  (trace w ++ [EvInsertOne coll data]) in
  let o := (next_oid w mod 16 ^ 24)%N in
  except_Exception (
    do inserted_id <- create_document coll data;
    do oid <- ObjectId_new inserted_id;
    do doc <- find_one coll oid;
    ret (serialize_doc doc)) w
  = (Ok (serialize_doc (lookup_id w' coll o)),
     World (db w') (next_oid w')
           (trace w ++ [EvInsertOne coll data; EvFindOne coll o])).
Proof.
  intros He w' o. unfold except_Exception, try_except.
  rewrite (bind_Ok _ _ _ _ _ (create_document_run coll data w He)).
  rewrite (bind_Ok _ _ _ _ _ (ObjectId_new_parse _ _ _ (parse_to_string (next_oid w)))).
  rewrite (bind_Ok _ _ _ _ _ (find_one_run _ _ _)).
  unfold ret. cbn [trace db next_oid]. by rewrite <- app_assoc.
Qed.

(** An integer beyond 8 bytes in the record: the insert raises while the
    document is encoded, nothing is written, and the handler's
    [except Exception] answers 500. *)
Lemma create_tail_overflow (coll : string) (data : document) (w : world) :
  encodable data = false →
  except_Exception (
    do inserted_id <- create_document coll data;
    do oid <- ObjectId_new inserted_id;
    do doc <- find_one coll oid;
    ret (serialize_doc doc)) w
  = (Raise (HTTPException 500 "MongoDB can only handle up to 8-byte ints"),
     World (db w) (next_oid w) (trace w ++ [EvInsertOne coll data])).
Proof.
  intros He. unfold except_Exception, try_except.
  by rewrite (bind_Raise _ _ _ _ _ (create_document_overflow coll data w He)).
Qed.

Lemma encodable_true (d : document) :
  encodable d = true ↔ ∀ k v, d !! k = Some v → value_encodable v = true.
Proof. unfold encodable. by rewrite bool_decide_eq_true. Qed.

Lemma opt_str_encodable (v : option string) : value_encodable (opt_str v) = true.
Proof. by destruct v. Qed.

Lemma opt_float_encodable (v : option spec_float) : value_encodable (opt_float v) = true.
Proof. by destruct v. Qed.

Lemma project_dump_encodable (p : Project.t) : encodable (Project.model_dump p) = true.
Proof.
  apply bool_decide_eq_true. unfold Project.model_dump.
  repeat (apply map_Forall_insert_2; [first [reflexivity | apply opt_str_encodable]|]).
  apply map_Forall_empty.
Qed.

Lemma building_dump_encodable (b : Building.t) : encodable (Building.model_dump b) = true.
Proof.
  apply bool_decide_eq_true. unfold Building.model_dump.
  repeat (apply map_Forall_insert_2; [first [reflexivity | apply opt_str_encodable]|]).
  apply map_Forall_empty.
Qed.

(** Of an Element only [quantity] can stand in the way. *)
Lemma element_dump_encodable (e : Element.t) :
  encodable (Element.model_dump e) = int64 (Element.quantity e).
Proof.
  destruct (int64 (Element.quantity e)) eqn:Hq.
  - apply bool_decide_eq_true. unfold Element.model_dump.
    repeat (apply map_Forall_insert_2;
            [first [exact Hq | reflexivity | apply opt_str_encodable
                   | apply opt_float_encodable]|]).
    apply map_Forall_empty.
  - apply bool_decide_eq_false. intros Hall.
    assert (Element.model_dump e !! "quantity" = Some (VInt (Element.quantity e))) as Hl.
    { unfold Element.model_dump. do 9 (rewrite lookup_insert_ne by done).
      apply lookup_insert_eq. }
    specialize (Hall _ _ Hl). cbn in Hall. congruence.
Qed.

(** *** Element creation *)

(** What [ObjectId.is_valid] rejects: a string that has not 24 characters,
    or one that [bytes.fromhex] cannot read. *)
Lemma is_valid_false_iff (s : string) :
  ObjectId.is_valid s = false ↔
  String.length s ≠ 24%nat ∨ ObjectId.fromhex s 0 0%N = None.
Proof.
  unfold ObjectId.is_valid, ObjectId.parse.
  destruct s as [|c s]; [cbn; split; [left; lia|reflexivity]|].
  destruct (Nat.eqb (String.length (String c s)) 24) eqn:Hlen.
  - apply Nat.eqb_eq in Hlen.
    destruct (ObjectId.fromhex (String c s) 0 0%N) as [[count v]|].
    + split; [discriminate|]. intros [Hne|Hno]; [lia|discriminate].
    + split; [by right|reflexivity].
  - apply Nat.eqb_neq in Hlen. split; [by left|reflexivity].
Qed.

(** C3 (as stated it fails): the 24 characters of [spaced_id] are not 24
    hexadecimal digits, yet [ObjectId.is_valid] accepts them, white space
    between byte pairs being skipped.  The request passes the check, the
    project collection is queried, and the answer is the 404 of the parent,
    not a 400. *)
Lemma create_element_spaced_project_id :
  String.length spaced_id = 24%nat ∧
  ObjectId.from_hex spaced_id 0%N = None ∧
  ObjectId.is_valid spaced_id = true ∧
  run (create_element
         (Element.Make spaced_id None Element.porte None None None None None None 1
                       None None None)) w1
    = Raise (HTTPException 404 "Parent project not found") ∧
  classify (HTTPException 404 "Parent project not found") ≠ InvalidIdentifier ∧
  trace (exec (create_element
                 (Element.Make spaced_id None Element.porte None None None None None None 1
                               None None None)) w1)
    = (trace w1 ++ [EvFindOne "project" (ObjectId.of_bytes 8 0%N)])%list ∧
  trace (exec (create_element
                 (Element.Make spaced_id None Element.porte None None None None None None 1
                               None None None)) w1)
    ≠ trace w1.
Proof.
  split; [reflexivity|]. split; [reflexivity|]. split; [reflexivity|].
  split; [vm_compute; reflexivity|]. split; [discriminate|].
  assert (trace (exec (create_element
                 (Element.Make spaced_id None Element.porte None None None None None None 1
                               None None None)) w1)
          = (trace w1 ++ [EvFindOne "project" (ObjectId.of_bytes 8 0%N)])%list) as Ht
    by (vm_compute; reflexivity).
  split; [exact Ht|].
  rewrite Ht. intros Heq. apply (f_equal length) in Heq.
  rewrite length_app in Heq. cbn [length] in Heq. lia.
Qed.

(** C3 (amended): an Element whose [project_id] is rejected by
    [ObjectId.is_valid] (it has not 24 characters, or is not made of pairs
    of hexadecimal digits with white space only where a pair may start) is
    answered with 400 "Invalid project_id", a client error other than the
    not-found ones, and the world is exactly as before: no lookup, no
    insert, nothing in the trace. *)
Theorem create_element_invalid_project_id (payload : Element.t) (w : world) :
  ObjectId.is_valid (Element.project_id payload) = false →
  create_element payload w = (Raise (HTTPException 400 "Invalid project_id"), w) ∧
  classify (HTTPException 400 "Invalid project_id") = InvalidIdentifier ∧
  status_of (run (create_element payload) w) = 400 ∧
  trace (exec (create_element payload) w) = trace w ∧
  db (exec (create_element payload) w) = db w.
Proof.
  intros Hbad.
  assert (create_element payload w = (Raise (HTTPException 400 "Invalid project_id"), w))
    as Hrun by (unfold create_element; by rewrite Hbad).
  unfold run, exec. by rewrite Hrun.
Qed.

Lemma create_element_invalid_project_id_witness :
  create_element (Element.Make "12345" None Element.porte None None None None None None 1
                               None None None) w1
    = (Raise (HTTPException 400 "Invalid project_id"), w1).
Proof.
  apply (create_element_invalid_project_id
           (Element.Make "12345" None Element.porte None None None None None None 1
                         None None None) w1).
  reflexivity.
Defined.

(** *** Reading one project *)

Lemma get_project_invalid (project_id : string) (w : world) :
  ObjectId.is_valid project_id = false →
  get_project project_id w = (Raise (HTTPException 500 "Invalid ObjectId"), w).
Proof.
  intros Hbad. unfold get_project, except_HTTPException_raise, try_except.
  rewrite (bind_Raise _ _ w w (PyError "ValueError" "Invalid ObjectId")); [done|].
  unfold PyObjectId_validate. by rewrite Hbad.
Qed.

(** C4 (the code departs from it): on the malformed identifier ["not-an-id"]
    [get_project] makes no store call, but the [ValueError] of the
    well-formedness check is caught by the handler's own [except Exception]
    and leaves as a 500, not as the 400 its sibling handlers raise. *)
Theorem get_project_malformed_is_500 (w : world) :
  get_project "not-an-id" w = (Raise (HTTPException 500 "Invalid ObjectId"), w) ∧
  status_of (run (get_project "not-an-id") w) = 500 ∧
  classify (HTTPException 500 "Invalid ObjectId") = InternalStoreError ∧
  run (list_buildings "not-an-id") w = Raise (HTTPException 400 "Invalid project_id").
Proof.
  assert (get_project "not-an-id" w = (Raise (HTTPException 500 "Invalid ObjectId"), w))
    as Hrun by (by apply get_project_invalid).
  unfold run. by rewrite Hrun.
Qed.

(** The steps of [create_element] on a payload that names a building. *)
Lemma check_building_run (bid : string) (w : world) :
  bid ≠ "" →
  check_building (Some bid) w
  = if ObjectId.is_valid bid then
      match ObjectId.parse bid with
      | Some boid =>
          let w' := World (db w) (next_oid w) (trace w ++ [EvFindOne "building" boid]) in
          match lookup_id w "building" boid with
          | Some _ => (Ok tt, w')
          | None => (Raise (HTTPException 404 "Parent building not found"), w')
          end
      | None => (Raise (HTTPException 400 "Invalid building_id"), w)
      end
    else (Raise (HTTPException 400 "Invalid building_id"), w).
Proof.
  intros Hne. unfold check_building, str_truthy.
  assert (String.eqb bid "" = false) as -> by (by apply String.eqb_neq).
  cbn [negb]. change (default "" (Some bid)) with bid.
  destruct (ObjectId.is_valid bid) eqn:Hv; [|reflexivity].
  cbn [negb]. destruct (proj1 (is_valid_parse _) Hv) as [boid Hb]. rewrite Hb.
  rewrite (bind_Ok _ _ _ _ _ (ObjectId_new_parse _ _ w Hb)).
  rewrite (bind_Ok _ _ _ _ _ (find_one_run _ _ _)).
  destruct (lookup_id w "building" boid) as [d|] eqn:Hl; [|done].
  by rewrite (lookup_id_truthy _ _ _ _ Hl).
Qed.

Lemma create_element_project_found (payload : Element.t) (w : world)
    (poid : ObjectId.t) (p : document) :
  ObjectId.parse (Element.project_id payload) = Some poid →
  lookup_id w "project" poid = Some p →
  create_element payload w
  = bind (check_building (Element.building_id payload))
      (λ _, except_Exception (
         do inserted_id <- create_document "element" (Element.model_dump payload);
         do oid <- ObjectId_new inserted_id;
         do doc <- find_one "element" oid;
         ret (serialize_doc doc)))
      (World (db w) (next_oid w) (trace w ++ [EvFindOne "project" poid])).
Proof.
  intros Hp Hl. unfold create_element.
  rewrite (proj2 (is_valid_parse _) (ex_intro _ poid Hp)). cbn [negb].
  rewrite (bind_Ok _ _ _ _ _ (ObjectId_new_parse _ _ w Hp)).
  rewrite (bind_Ok _ _ _ _ _ (find_one_run _ _ _)), Hl.
  by rewrite (lookup_id_truthy _ _ _ _ Hl).
Qed.

Lemma create_element_project_missing (payload : Element.t) (w : world)
    (poid : ObjectId.t) :
  ObjectId.parse (Element.project_id payload) = Some poid →
  lookup_id w "project" poid = None →
  create_element payload w
  = (Raise (HTTPException 404 "Parent project not found"),
     World (db w) (next_oid w) (trace w ++ [EvFindOne "project" poid])).
Proof.
  intros Hp Hl. unfold create_element.
  rewrite (proj2 (is_valid_parse _) (ex_intro _ poid Hp)). cbn [negb].
  rewrite (bind_Ok _ _ _ _ _ (ObjectId_new_parse _ _ w Hp)).
  by rewrite (bind_Ok _ _ _ _ _ (find_one_run _ _ _)), Hl.
Qed.

(** C5 (as stated it fails): with a stored project and the malformed
    [building_id] ["xyz"], the request is refused for well-formedness only
    after the project has been looked up; and with an unknown project the
    malformed [building_id] is never examined, the answer is the 404 of the
    project. *)
Lemma create_element_building_checked_after_lookup :
  ObjectId.is_valid "xyz" = false ∧
  run (create_element (sample_element (Some "xyz") Element.porte None 1)) w1
    = Raise (HTTPException 400 "Invalid building_id") ∧
  trace (exec (create_element (sample_element (Some "xyz") Element.porte None 1)) w1)
    = (trace w1 ++ [EvFindOne "project" 0%N])%list ∧
  trace (exec (create_element (sample_element (Some "xyz") Element.porte None 1)) w1)
    ≠ trace w1 ∧
  run (create_element
         (Element.Make "ffffffffffffffffffffffff" (Some "xyz") Element.porte None None None
                       None None None 1 None None None)) w1
    = Raise (HTTPException 404 "Parent project not found").
Proof.
  split; [reflexivity|]. split; [vm_compute; reflexivity|].
  assert (trace (exec (create_element (sample_element (Some "xyz") Element.porte None 1)) w1)
          = (trace w1 ++ [EvFindOne "project" 0%N])%list) as Ht
    by (vm_compute; reflexivity).
  split; [exact Ht|]. split; [|vm_compute; reflexivity].
  rewrite Ht. intros Heq. apply (f_equal length) in Heq.
  rewrite length_app in Heq. cbn [length] in Heq. lia.
Qed.

(** C5 (amended): for an Element that names a building, the checks run one
    identifier at a time: well-formedness of [project_id], lookup of the
    project, well-formedness of [building_id], lookup of the building, then
    the insert and the read-back.  Each refusal is reached with exactly the
    store calls of the steps before it.  The insert itself stores the record
    when its [quantity] fits in 8 bytes, and otherwise raises before
    anything is written, which the handler answers with 500. *)
Theorem create_element_check_order (payload : Element.t) (bid : string) (w : world) :
  Element.building_id payload = Some bid →
  bid ≠ "" →
  let pid := Element.project_id payload in
  let after evs := World (db w) (next_oid w) (trace w ++ evs) in
  (ObjectId.is_valid pid = false →
     create_element payload w = (Raise (HTTPException 400 "Invalid project_id"), w)) ∧
  (∀ poid, ObjectId.parse pid = Some poid →
     lookup_id w "project" poid = None →
     create_element payload w
     = (Raise (HTTPException 404 "Parent project not found"),
        after [EvFindOne "project" poid])) ∧
  (∀ poid p, ObjectId.parse pid = Some poid →
     lookup_id w "project" poid = Some p →
     ObjectId.is_valid bid = false →
     create_element payload w
     = (Raise (HTTPException 400 "Invalid building_id"),
        after [EvFindOne "project" poid])) ∧
  (∀ poid p boid, ObjectId.parse pid = Some poid →
     lookup_id w "project" poid = Some p →
     ObjectId.parse bid = Some boid →
     lookup_id w "building" boid = None →
     create_element payload w
     = (Raise (HTTPException 404 "Parent building not found"),
        after [EvFindOne "project" poid; EvFindOne "building" boid])) ∧
  (∀ poid p boid b, ObjectId.parse pid = Some poid →
     lookup_id w "project" poid = Some p →
     ObjectId.parse bid = Some boid →
     lookup_id w "building" boid = Some b →
     int64 (Element.quantity payload) = true →
     ∃ r, create_element payload w
     = (Ok r,
        World (db (inserted w "element" (Element.model_dump payload)))
              (N.succ (next_oid w))
              (trace w ++ [EvFindOne "project" poid; EvFindOne "building" boid;
                           EvInsertOne "element" (Element.model_dump payload);
                           EvFindOne "element" (next_oid w mod 16 ^ 24)%N]))) ∧
  (∀ poid p boid b, ObjectId.parse pid = Some poid →
     lookup_id w "project" poid = Some p →
     ObjectId.parse bid = Some boid →
     lookup_id w "building" boid = Some b →
     int64 (Element.quantity payload) = false →
     ∃ detail, create_element payload w
     = (Raise (HTTPException 500 detail),
        after [EvFindOne "project" poid; EvFindOne "building" boid;
               EvInsertOne "element" (Element.model_dump payload)])).
Proof.
  intros Hbid Hne pid after.
  assert (∀ poid p boid b, ObjectId.parse pid = Some poid →
            lookup_id w "project" poid = Some p →
            ObjectId.parse bid = Some boid →
            lookup_id w "building" boid = Some b →
            check_building (Some bid)
              (World (db w) (next_oid w) (trace w ++ [EvFindOne "project" poid]))
            = (Ok tt, World (db w) (next_oid w)
                            ((trace w ++ [EvFindOne "project" poid])
                             ++ [EvFindOne "building" boid]))) as Hchecks.
  { intros poid p boid b Hp Hl Hb Hlb.
    rewrite (check_building_run _ _ Hne), Hb.
    rewrite (proj2 (is_valid_parse _) (ex_intro _ boid Hb)).
    change (lookup_id _ "building" boid) with (lookup_id w "building" boid).
    by rewrite Hlb. }
  split_and!.
  - intros Hbad. unfold create_element. fold pid. by rewrite Hbad.
  - intros poid Hp Hl. by apply create_element_project_missing.
  - intros poid p Hp Hl Hbad.
    rewrite (create_element_project_found _ _ _ _ Hp Hl), Hbid.
    erewrite bind_Raise; [reflexivity|].
    rewrite (check_building_run _ _ Hne), Hbad. reflexivity.
  - intros poid p boid Hp Hl Hb Hlb.
    rewrite (create_element_project_found _ _ _ _ Hp Hl), Hbid.
    erewrite bind_Raise; [reflexivity|].
    rewrite (check_building_run _ _ Hne), Hb.
    rewrite (proj2 (is_valid_parse _) (ex_intro _ boid Hb)).
    change (lookup_id _ "building" boid) with (lookup_id w "building" boid).
    rewrite Hlb. cbn [trace db next_oid]. by rewrite <- app_assoc.
  - intros poid p boid b Hp Hl Hb Hlb Hq.
    rewrite (create_element_project_found _ _ _ _ Hp Hl), Hbid.
    eexists. rewrite (bind_Ok _ _ _ _ _ (Hchecks _ _ _ _ Hp Hl Hb Hlb)).
    rewrite create_tail_run by (by rewrite element_dump_encodable).
    cbn [trace db next_oid]. unfold inserted, collection.
    cbn [trace db next_oid]. rewrite <- !app_assoc. reflexivity.
  - intros poid p boid b Hp Hl Hb Hlb Hq.
    rewrite (create_element_project_found _ _ _ _ Hp Hl), Hbid.
    eexists. rewrite (bind_Ok _ _ _ _ _ (Hchecks _ _ _ _ Hp Hl Hb Hlb)).
    rewrite create_tail_overflow by (by rewrite element_dump_encodable).
    unfold after. cbn [trace db next_oid]. rewrite <- !app_assoc. reflexivity.
Qed.

Lemma w1_has_project : ∃ p, lookup_id w1 "project" 0%N = Some p.
Proof.
  assert (match lookup_id w1 "project" 0%N with Some _ => true | None => false end = true)
    as H by (vm_compute; reflexivity).
  destruct (lookup_id w1 "project" 0%N) as [p|]; [by exists p|discriminate H].
Qed.

Lemma create_element_check_order_witness :
  create_element (sample_element (Some "xyz") Element.porte None 1) w1
  = (Raise (HTTPException 400 "Invalid building_id"),
     World (db w1) (next_oid w1) (trace w1 ++ [EvFindOne "project" 0%N])).
Proof.
  assert (Element.building_id (sample_element (Some "xyz") Element.porte None 1) = Some "xyz")
    as Hbid by reflexivity.
  assert ("xyz" ≠ "") as Hne by discriminate.
  destruct (create_element_check_order _ "xyz" w1 Hbid Hne) as (_ & _ & H3 & _).
  destruct w1_has_project as [p Hl].
  apply (H3 0%N p).
  - vm_compute. reflexivity.
  - exact Hl.
  - vm_compute. reflexivity.
Defined.

(** *** Listing *)

Lemma find_all_run (coll : string) (query : document) (w : world) :
  find_all coll query w
  = (Ok (filter (λ d, matches query d = true) (collection w coll)),
     World (db w) (next_oid w) (trace w ++ [EvFind coll query])).
Proof. reflexivity. Qed.

Lemma matches_singleton (k : string) (v : value) (d : document) :
  matches {[k := v]} d = true ↔ d !! k = Some v.
Proof.
  unfold matches. rewrite bool_decide_eq_true. apply map_singleton_subseteq_l.
Qed.

Lemma matches_insert_singleton (k1 k2 : string) (v1 v2 : value) (d : document) :
  k1 ≠ k2 →
  matches (<[k1 := v1]> {[k2 := v2]}) d = true ↔ d !! k2 = Some v2 ∧ d !! k1 = Some v1.
Proof.
  intros Hne. unfold matches. rewrite bool_decide_eq_true, map_subseteq_spec. split.
  - intros H. split; apply H.
    + rewrite lookup_insert_ne by done. apply lookup_singleton_eq.
    + apply lookup_insert_eq.
  - intros [H2 H1] i x Hi. destruct (decide (i = k1)) as [->|Hi1].
    + rewrite lookup_insert_eq in Hi. by simplify_eq.
    + rewrite lookup_insert_ne in Hi by done.
      apply lookup_singleton_Some in Hi as [<- <-]. done.
Qed.

Lemma list_elements_unfiltered (project_id : string) (building_id : option string)
    (w : world) :
  ObjectId.is_valid project_id = true →
  str_truthy building_id = false →
  list_elements project_id building_id w
  = (Ok (map (λ d, serialize_doc (Some d))
           (filter (λ d, d !! "project_id" = Some (VStr project_id))
                   (collection w "element"))),
     World (db w) (next_oid w)
           (trace w ++ [EvFind "element" {["project_id" := VStr project_id]}])).
Proof.
  intros Hv Hb. unfold list_elements, except_HTTPException_raise, try_except.
  rewrite Hv, Hb. cbn [negb].
  erewrite bind_Ok; [|reflexivity].
  erewrite bind_Ok; [|apply find_all_run]. unfold ret, serialize_all. do 3 f_equal.
  apply list_filter_iff. intros d. apply matches_singleton.
Qed.

(** C6: with a well-formed project identifier and a well-formed (hence
    non-empty) [building_id] filter, the listing holds, in store order and
    each passed through [serialize_doc], exactly the stored elements whose
    [project_id] is the requested one and whose [building_id] is the filter:
    one entry for each of them and no other. *)
Theorem list_elements_by_building (project_id building_id : string) (w : world) :
  ObjectId.is_valid project_id = true →
  ObjectId.is_valid building_id = true →
  ∃ docs,
    run (list_elements project_id (Some building_id)) w
      = Ok (map (λ d, serialize_doc (Some d)) docs) ∧
    docs = filter (λ d, d !! "project_id" = Some (VStr project_id)
                        ∧ d !! "building_id" = Some (VStr building_id))
                  (collection w "element") ∧
    (∀ d, d ∈ docs ↔ d ∈ collection w "element"
                      ∧ d !! "project_id" = Some (VStr project_id)
                      ∧ d !! "building_id" = Some (VStr building_id)) ∧
    (∀ rs, run (list_elements project_id (Some building_id)) w = Ok rs →
           length rs = length docs) ∧
    db (exec (list_elements project_id (Some building_id)) w) = db w.
Proof.
  intros Hp Hb.
  assert (list_elements project_id (Some building_id) w
          = (Ok (map (λ d, serialize_doc (Some d))
                   (filter (λ d, d !! "project_id" = Some (VStr project_id)
                                 ∧ d !! "building_id" = Some (VStr building_id))
                           (collection w "element"))),
             World (db w) (next_oid w)
                   (trace w ++ [EvFind "element"
                                  (<["building_id" := VStr building_id]>
                                     {["project_id" := VStr project_id]})]))) as Hrun.
  { unfold list_elements, except_HTTPException_raise, try_except, str_truthy.
    rewrite Hp. cbn [negb].
    assert (String.eqb building_id "" = false) as ->
      by (apply String.eqb_neq; by apply is_valid_nonempty).
    cbn [negb]. change (default "" (Some building_id)) with building_id.
    rewrite Hb. cbn [negb].
    erewrite bind_Ok; [|reflexivity].
    erewrite bind_Ok; [|apply find_all_run]. unfold ret, serialize_all. do 3 f_equal.
    apply list_filter_iff. intros d. by apply matches_insert_singleton. }
  eexists. unfold run, exec. rewrite Hrun. cbn [fst snd db].
  split; [reflexivity|]. split; [reflexivity|]. split; [|split; [|reflexivity]].
  - intros d. rewrite list_elem_of_filter. tauto.
  - intros rs [= <-]. by rewrite length_map.
Qed.

Lemma list_elements_by_building_witness :
  ∃ docs,
    run (list_elements pid0 (Some bid1)) w_elements
      = Ok (map (λ d, serialize_doc (Some d)) docs) ∧
    docs = filter (λ d, d !! "project_id" = Some (VStr pid0)
                        ∧ d !! "building_id" = Some (VStr bid1))
                  (collection w_elements "element") ∧
    (∀ d, d ∈ docs ↔ d ∈ collection w_elements "element"
                      ∧ d !! "project_id" = Some (VStr pid0)
                      ∧ d !! "building_id" = Some (VStr bid1)) ∧
    (∀ rs, run (list_elements pid0 (Some bid1)) w_elements = Ok rs →
           length rs = length docs) ∧
    db (exec (list_elements pid0 (Some bid1)) w_elements) = db w_elements.
Proof.
  apply (list_elements_by_building pid0 bid1 w_elements); vm_compute; reflexivity.
Defined.

Example list_elements_by_building_counts :
  length (collection w_elements "element") = 4%nat ∧
  (length <$> (match run (list_elements pid0 (Some bid1)) w_elements with
               | Ok l => Some l
               | Raise _ => None
               end)) = Some 2%nat.
Proof. vm_compute. done. Qed.

(** C9: an empty [building_id] counts as no [building_id].  Listing with
    [building_id=""] is listing without the filter: no well-formedness check
    of the empty string, and every element of the project comes back, each
    passed through [serialize_doc].  Creating with [building_id=""] makes
    neither building check: the request is refused exactly when the project
    check refuses it, and otherwise the store calls are the project lookup
    and the insert, followed by the read-back when the record could be
    stored (its [quantity] fits in 8 bytes; if not, the insert raises, nothing
    is written and the answer is 500). *)
Theorem empty_building_id_is_absent :
  (∀ project_id w,
     list_elements project_id (Some "") w = list_elements project_id None w) ∧
  (∀ project_id w,
     ObjectId.is_valid project_id = true →
     list_elements project_id (Some "") w
     = (Ok (map (λ d, serialize_doc (Some d))
              (filter (λ d, d !! "project_id" = Some (VStr project_id))
                      (collection w "element"))),
        World (db w) (next_oid w)
              (trace w ++ [EvFind "element" {["project_id" := VStr project_id]}]))) ∧
  (∀ payload w,
     Element.building_id payload = Some "" →
     let pid := Element.project_id payload in
     (ObjectId.is_valid pid = false →
        create_element payload w = (Raise (HTTPException 400 "Invalid project_id"), w)) ∧
     (∀ poid, ObjectId.parse pid = Some poid →
        lookup_id w "project" poid = None →
        create_element payload w
        = (Raise (HTTPException 404 "Parent project not found"),
           World (db w) (next_oid w) (trace w ++ [EvFindOne "project" poid]))) ∧
     (∀ poid p, ObjectId.parse pid = Some poid →
        lookup_id w "project" poid = Some p →
        int64 (Element.quantity payload) = true →
        ∃ r, create_element payload w
        = (Ok r,
           World (db (inserted w "element" (Element.model_dump payload)))
                 (N.succ (next_oid w))
                 (trace w ++ [EvFindOne "project" poid;
                              EvInsertOne "element" (Element.model_dump payload);
                              EvFindOne "element" (next_oid w mod 16 ^ 24)%N]))) ∧
     (∀ poid p, ObjectId.parse pid = Some poid →
        lookup_id w "project" poid = Some p →
        int64 (Element.quantity payload) = false →
        ∃ detail, create_element payload w
        = (Raise (HTTPException 500 detail),
           World (db w) (next_oid w)
                 (trace w ++ [EvFindOne "project" poid;
                              EvInsertOne "element" (Element.model_dump payload)])))).
Proof.
  split; [reflexivity|]. split.
  - intros project_id w Hv. by apply list_elements_unfiltered.
  - intros payload w Hbid pid. split_and!.
    + intros Hbad. unfold create_element. fold pid. by rewrite Hbad.
    + intros poid Hp Hl. by apply create_element_project_missing.
    + intros poid p Hp Hl Hq.
      rewrite (create_element_project_found _ _ _ _ Hp Hl), Hbid.
      eexists. erewrite bind_Ok; [|reflexivity].
      rewrite create_tail_run by (by rewrite element_dump_encodable).
      cbn [trace db next_oid]. unfold inserted, collection.
      cbn [trace db next_oid]. rewrite <- !app_assoc. reflexivity.
    + intros poid p Hp Hl Hq.
      rewrite (create_element_project_found _ _ _ _ Hp Hl), Hbid.
      eexists. erewrite bind_Ok; [|reflexivity].
      rewrite create_tail_overflow by (by rewrite element_dump_encodable).
      cbn [trace db next_oid]. rewrite <- !app_assoc. reflexivity.
Qed.

Lemma empty_building_id_is_absent_witness :
  list_elements pid0 (Some "") w_elements
  = (Ok (map (λ d, serialize_doc (Some d))
           (filter (λ d, d !! "project_id" = Some (VStr pid0))
                   (collection w_elements "element"))),
     World (db w_elements) (next_oid w_elements)
           (trace w_elements ++ [EvFind "element" {["project_id" := VStr pid0]}])) ∧
  ∃ r, create_element (sample_element (Some "") Element.porte None 1) w1
       = (Ok r,
          World (db (inserted w1 "element"
                       (Element.model_dump (sample_element (Some "") Element.porte None 1))))
                (N.succ (next_oid w1))
                (trace w1 ++ [EvFindOne "project" 0%N;
                              EvInsertOne "element"
                                (Element.model_dump
                                   (sample_element (Some "") Element.porte None 1));
                              EvFindOne "element" (next_oid w1 mod 16 ^ 24)%N])).
Proof.
  destruct empty_building_id_is_absent as (_ & Hlist & Hcreate).
  split; [apply (Hlist pid0 w_elements); reflexivity|].
  destruct w1_has_project as [p Hl].
  destruct (Hcreate (sample_element (Some "") Element.porte None 1) w1 eq_refl)
    as (_ & _ & Hok & _).
  apply (Hok 0%N p); [vm_compute; reflexivity|exact Hl|reflexivity].
Defined.

(** *** Validation of an Element payload *)

Lemma negative_not_ge (field : string) (v : option spec_float) :
  negative v = true →
  optional_float_ge field Element.zero v = inl [(field, greater_than_equal)].
Proof.
  destruct v as [f|]; [|discriminate]. cbn [negative optional_float_ge].
  unfold SFltb, SFleb, Element.zero.
  destruct f as [s|s| |s m e]; try destruct s; cbn; congruence.
Qed.

Lemma validate_inr (body : Element.raw) (p : Element.t) :
  Element.validate body = inr p →
  optional_float_ge "height_mm" Element.zero (Element.raw_height_mm body)
    = inr (Element.height_mm p) ∧
  optional_float_ge "width_mm" Element.zero (Element.raw_width_mm body)
    = inr (Element.width_mm p) ∧
  optional_float_ge "depth_mm" Element.zero (Element.raw_depth_mm body)
    = inr (Element.depth_mm p) ∧
  optional_float_ge "thickness_mm" Element.zero (Element.raw_thickness_mm body)
    = inr (Element.thickness_mm p) ∧
  int_ge "quantity" 1 1 (Element.raw_quantity body) = inr (Element.quantity p).
Proof.
  unfold Element.validate.
  destruct (required "project_id" _) as [e1|x1]; [discriminate|].
  destruct (match required "element_type" _ with inr _ => _ | inl _ => _ end) as [e2|x2];
    [discriminate|].
  destruct (match Element.raw_opening body with None => _ | Some _ => _ end) as [e3|x3];
    [discriminate|].
  destruct (optional_float_ge "height_mm" _ _) as [e4|x4]; [discriminate|].
  destruct (optional_float_ge "width_mm" _ _) as [e5|x5]; [discriminate|].
  destruct (optional_float_ge "depth_mm" _ _) as [e6|x6]; [discriminate|].
  destruct (optional_float_ge "thickness_mm" _ _) as [e7|x7]; [discriminate|].
  destruct (int_ge "quantity" 1 1 _) as [e8|x8]; [discriminate|].
  by intros [= <-].
Qed.

(** The error details collect the errors of every field. *)
Lemma validate_inl (body : Element.raw) (errs : error_details) (e : string * error_type) :
  Element.validate body = inl errs →
  e ∈ errors_of (optional_float_ge "height_mm" Element.zero (Element.raw_height_mm body))
  ∨ e ∈ errors_of (optional_float_ge "width_mm" Element.zero (Element.raw_width_mm body))
  ∨ e ∈ errors_of (optional_float_ge "depth_mm" Element.zero (Element.raw_depth_mm body))
  ∨ e ∈ errors_of (optional_float_ge "thickness_mm" Element.zero
                     (Element.raw_thickness_mm body))
  ∨ e ∈ errors_of (int_ge "quantity" 1 1 (Element.raw_quantity body)) →
  e ∈ errs.
Proof.
  unfold Element.validate.
  pose proof (not_elem_of_nil e) as Hnil.
  destruct (required "project_id" _) as [e1|x1];
    [intros [= <-]; rewrite ?elem_of_app; tauto|].
  destruct (match required "element_type" _ with inr _ => _ | inl _ => _ end) as [e2|x2];
    [intros [= <-]; rewrite ?elem_of_app; tauto|].
  destruct (match Element.raw_opening body with None => _ | Some _ => _ end) as [e3|x3];
    [intros [= <-]; rewrite ?elem_of_app; tauto|].
  destruct (optional_float_ge "height_mm" _ _) as [e4|x4];
    [intros [= <-]; rewrite ?elem_of_app; tauto|].
  destruct (optional_float_ge "width_mm" _ _) as [e5|x5];
    [intros [= <-]; rewrite ?elem_of_app; cbn [errors_of]; tauto|].
  destruct (optional_float_ge "depth_mm" _ _) as [e6|x6];
    [intros [= <-]; rewrite ?elem_of_app; cbn [errors_of]; tauto|].
  destruct (optional_float_ge "thickness_mm" _ _) as [e7|x7];
    [intros [= <-]; rewrite ?elem_of_app; cbn [errors_of]; tauto|].
  destruct (int_ge "quantity" 1 1 _) as [e8|x8];
    [intros [= <-]; rewrite ?elem_of_app; cbn [errors_of]; tauto|].
  discriminate.
Qed.

Lemma rejected_intro (body : Element.raw) (field : string) :
  (∀ p, Element.validate body ≠ inr p) →
  (∀ errs, Element.validate body = inl errs → (field, greater_than_equal) ∈ errs) →
  rejected body field.
Proof.
  intros Hno Hin. destruct (Element.validate body) as [errs|p] eqn:Hv.
  - exists errs. split; [done|]. split; [by apply Hin|].
    intros w. unfold post_elements. by rewrite Hv.
  - by destruct (Hno p).
Qed.

(** C8: an Element payload without [quantity] validates to a record with
    [quantity = 1]; a payload in which one of the four [_mm] fields is
    negative, or [quantity] is below 1, fails validation with an error on
    that field, and no store call is made. *)
Theorem element_validation (body : Element.raw) :
  (Element.raw_quantity body = None →
     ∀ p, Element.validate body = inr p → Element.quantity p = 1) ∧
  (∀ field get, (field, get) ∈ mm_fields → negative (get body) = true →
     rejected body field) ∧
  (∀ q, Element.raw_quantity body = Some q → q < 1 → rejected body "quantity").
Proof.
  split; [|split].
  - intros Hq p Hv. apply validate_inr in Hv as (_ & _ & _ & _ & Hint).
    rewrite Hq in Hint. cbn in Hint. by injection Hint.
  - intros field get Hin Hneg. unfold mm_fields in Hin.
    rewrite !elem_of_cons in Hin.
    destruct Hin as [Heq|[Heq|[Heq|[Heq|Hin]]]];
      [| | | |by apply not_elem_of_nil in Hin];
      pose proof (negative_not_ge field _ Hneg) as Hge; injection Heq as -> ->;
      (apply rejected_intro;
       [intros p Hv; apply validate_inr in Hv as (H1 & H2 & H3 & H4 & _); congruence
       |intros errs Hv; apply (validate_inl _ _ _ Hv); rewrite Hge;
        cbn [errors_of]; rewrite list_elem_of_singleton; tauto]).
  - intros q Hq Hlt.
    assert (int_ge "quantity" 1 1 (Element.raw_quantity body)
            = inl [("quantity", greater_than_equal)]) as Hge.
    { rewrite Hq. cbn [int_ge]. destruct (1 <=? q) eqn:E; [|done].
      apply Z.leb_le in E. lia. }
    apply rejected_intro.
    + intros p Hv. apply validate_inr in Hv as (_ & _ & _ & _ & H5). congruence.
    + intros errs Hv. apply (validate_inl _ _ _ Hv). rewrite Hge.
      cbn [errors_of]. rewrite list_elem_of_singleton. tauto.
Qed.

Lemma element_validation_witness :
  (∃ p, Element.validate (sample_body None None) = inr p ∧ Element.quantity p = 1) ∧
  rejected (sample_body (Some minus_five) None) "height_mm" ∧
  rejected (sample_body None (Some 0)) "quantity".
Proof.
  split; [|split].
  - eexists. split; [reflexivity|].
    apply (proj1 (element_validation (sample_body None None)) eq_refl _ eq_refl).
  - apply (proj1 (proj2 (element_validation (sample_body (Some minus_five) None)))
             "height_mm" Element.raw_height_mm).
    + left.
    + reflexivity.
  - apply (proj2 (proj2 (element_validation (sample_body None (Some 0)))) 0).
    + reflexivity.
    + lia.
Defined.

(** *** Summary *)



Section Grouping.

Variable key : document → document.
Variable qty : document → Z.









End Grouping.




Lemma aggregate_run (coll : string) (p : pipeline) (w : world) :
  aggregate coll p w
  = (Ok (group_sum p (filter (λ d, matches (match_ p) d = true) (collection w coll))),
     World (db w) (next_oid w) (trace w ++ [EvAggregate coll p])).
Proof. reflexivity. Qed.




(** *** Serialization of the responses *)

Lemma lookup_id_db (w w' : world) (coll : string) (oid : ObjectId.t) :
  db w' = db w → lookup_id w' coll oid = lookup_id w coll oid.
Proof. intros H. unfold lookup_id, collection. by rewrite H. Qed.

Lemma check_building_Ok (building_id : option string) (w w' : world) :
  check_building building_id w = (Ok tt, w') →
  db w' = db w ∧ next_oid w' = next_oid w.
Proof.
  destruct (str_truthy building_id) eqn:Ht.
  - destruct building_id as [bid|]; [|discriminate].
    assert (bid ≠ "") as Hne.
    { intros ->. discriminate Ht. }
    rewrite (check_building_run _ _ Hne).
    destruct (ObjectId.is_valid bid); [|discriminate].
    destruct (ObjectId.parse bid) as [boid|]; [|discriminate].
    destruct (lookup_id w "building" boid); [|discriminate].
    by intros [= <-].
  - unfold check_building. rewrite Ht. by intros [= <-].
Qed.

Lemma get_project_Ok (project_id : string) (w : world) (r : option document) :
  run (get_project project_id) w = Ok r →
  ∃ oid d, ObjectId.parse project_id = Some oid ∧
           lookup_id w "project" oid = Some d ∧
           r = serialize_doc (Some d).
Proof.
  unfold run. destruct (ObjectId.is_valid project_id) eqn:Hv.
  - destruct (proj1 (is_valid_parse _) Hv) as [oid Hoid].
    unfold get_project, except_HTTPException_raise, try_except, PyObjectId_validate.
    rewrite Hv. cbn [negb].
    rewrite (bind_Ok _ _ _ _ _ (ObjectId_new_parse _ _ w Hoid)).
    rewrite (bind_Ok _ _ _ _ _ (find_one_run _ _ _)).
    destruct (lookup_id w "project" oid) as [d|] eqn:Hl.
    + rewrite (lookup_id_truthy _ _ _ _ Hl). cbn. intros [= <-]. by exists oid, d.
    + discriminate.
  - by rewrite (get_project_invalid _ _ Hv).
Qed.

Lemma create_project_Ok (payload : Project.t) (w : world) (r : option document) :
  run (create_project payload) w = Ok r →
  r = serialize_doc (lookup_id (exec (create_project payload) w) "project"
                               (next_oid w mod 16 ^ 24)%N).
Proof.
  unfold run, exec, create_project.
  rewrite create_tail_run by apply project_dump_encodable. cbn [fst snd].
  by intros [= <-].
Qed.

Lemma create_building_Ok (payload : Building.t) (w : world) (r : option document) :
  run (create_building payload) w = Ok r →
  r = serialize_doc (lookup_id (exec (create_building payload) w) "building"
                               (next_oid w mod 16 ^ 24)%N).
Proof.
  unfold run, exec, create_building.
  destruct (ObjectId.is_valid (Building.project_id payload)) eqn:Hv; [|discriminate].
  destruct (proj1 (is_valid_parse _) Hv) as [poid Hp]. cbn [negb].
  rewrite (bind_Ok _ _ _ _ _ (ObjectId_new_parse _ _ w Hp)).
  rewrite (bind_Ok _ _ _ _ _ (find_one_run _ _ _)).
  destruct (lookup_id w "project" poid) as [p|] eqn:Hl; [|discriminate].
  rewrite (lookup_id_truthy _ _ _ _ Hl). cbn [negb].
  rewrite create_tail_run by apply building_dump_encodable.
  cbn [fst snd]. by intros [= <-].
Qed.

Lemma create_element_Ok (payload : Element.t) (w : world) (r : option document) :
  run (create_element payload) w = Ok r →
  r = serialize_doc (lookup_id (exec (create_element payload) w) "element"
                               (next_oid w mod 16 ^ 24)%N).
Proof.
  unfold run, exec.
  destruct (ObjectId.is_valid (Element.project_id payload)) eqn:Hv;
    [|unfold create_element; rewrite Hv; discriminate].
  destruct (proj1 (is_valid_parse _) Hv) as [poid Hp].
  destruct (lookup_id w "project" poid) as [p|] eqn:Hl;
    [|rewrite (create_element_project_missing _ _ _ Hp Hl); discriminate].
  rewrite (create_element_project_found _ _ _ _ Hp Hl).
  destruct (check_building (Element.building_id payload)
              (World (db w) (next_oid w) (trace w ++ [EvFindOne "project" poid])))
    as [[[]|e] w2] eqn:Hcb.
  - apply check_building_Ok in Hcb as Hsame. destruct Hsame as [Hdb Hnext].
    cbn [db next_oid] in Hdb, Hnext.
    rewrite (bind_Ok _ _ _ _ _ Hcb).
    destruct (encodable (Element.model_dump payload)) eqn:He;
      [|rewrite (create_tail_overflow _ _ _ He); discriminate].
    rewrite (create_tail_run _ _ _ He). cbn [fst snd next_oid].
    rewrite Hnext. by intros [= <-].
  - rewrite (bind_Raise _ _ _ _ _ Hcb). discriminate.
Qed.

Lemma list_run_Ok (coll : string) (query : document) (w : world)
    (rs : list (option document)) :
  run (do docs <- get_documents coll (Some query); ret (serialize_all docs)) w = Ok rs →
  ∃ docs, rs = serialize_all docs ∧ ∀ d, d ∈ docs → d ∈ collection w coll.
Proof.
  unfold run, get_documents. rewrite (bind_Ok _ _ _ _ _ (find_all_run _ _ _)).
  cbn. intros [= <-]. eexists. split; [reflexivity|].
  by intros d [_ Hin]%list_elem_of_filter.
Qed.

Lemma list_projects_Ok (w : world) (rs : list (option document)) :
  run list_projects w = Ok rs →
  ∃ docs, rs = serialize_all docs ∧ ∀ d, d ∈ docs → d ∈ collection w "project".
Proof.
  unfold run, list_projects, except_Exception, try_except, get_documents.
  rewrite (bind_Ok _ _ _ _ _ (find_all_run _ _ _)).
  cbn. intros [= <-]. eexists. split; [reflexivity|].
  by intros d [_ Hin]%list_elem_of_filter.
Qed.

Lemma list_buildings_Ok (project_id : string) (w : world) (rs : list (option document)) :
  run (list_buildings project_id) w = Ok rs →
  ∃ docs, rs = serialize_all docs ∧ ∀ d, d ∈ docs → d ∈ collection w "building".
Proof.
  unfold run, list_buildings, except_HTTPException_raise, try_except.
  destruct (ObjectId.is_valid project_id); [|discriminate]. cbn [negb].
  unfold get_documents. rewrite (bind_Ok _ _ _ _ _ (find_all_run _ _ _)).
  cbn. intros [= <-]. eexists. split; [reflexivity|].
  by intros d [_ Hin]%list_elem_of_filter.
Qed.

Lemma list_elements_Ok (project_id : string) (building_id : option string) (w : world)
    (rs : list (option document)) :
  run (list_elements project_id building_id) w = Ok rs →
  ∃ docs, rs = serialize_all docs ∧ ∀ d, d ∈ docs → d ∈ collection w "element".
Proof.
  unfold run, list_elements, except_HTTPException_raise, try_except.
  destruct (ObjectId.is_valid project_id); [|discriminate]. cbn [negb].
  destruct (str_truthy building_id).
  - destruct (ObjectId.is_valid (default "" building_id)); [|discriminate]. cbn [negb].
    erewrite bind_Ok; [|reflexivity].
    unfold get_documents. rewrite (bind_Ok _ _ _ _ _ (find_all_run _ _ _)).
    cbn. intros [= <-]. eexists. split; [reflexivity|].
    by intros d [_ Hin]%list_elem_of_filter.
  - erewrite bind_Ok; [|reflexivity].
    unfold get_documents. rewrite (bind_Ok _ _ _ _ _ (find_all_run _ _ _)).
    cbn. intros [= <-]. eexists. split; [reflexivity|].
    by intros d [_ Hin]%list_elem_of_filter.
Qed.

(** C10: [serialize_doc] is a function of its argument alone.  It returns a
    missing or empty document as it is; on any other document it keeps the
    keys, keeps every value that is not an ObjectId, and replaces every
    ObjectId (that of [_id] among them) by its string form.  Every document
    in a successful response of the create, get and list handlers is the
    image under [serialize_doc] of a document of the store. *)
Theorem serialize_doc_spec :
  serialize_doc None = None ∧
  serialize_doc (Some ∅) = Some ∅ ∧
  (∀ d : document, ∃ d' : document,
     serialize_doc (Some d) = Some d' ∧
     dom d' = dom d ∧
     (∀ k v, d !! k = Some v → (∀ o, v ≠ VObjectId o) → d' !! k = Some v) ∧
     (∀ k o, d !! k = Some (VObjectId o) → d' !! k = Some (VStr (ObjectId.to_string o)))) ∧
  (∀ project_id w r,
     run (get_project project_id) w = Ok r →
     ∃ oid d, ObjectId.parse project_id = Some oid ∧
              lookup_id w "project" oid = Some d ∧ r = serialize_doc (Some d)) ∧
  (∀ payload w r,
     run (create_project payload) w = Ok r →
     r = serialize_doc (lookup_id (exec (create_project payload) w) "project"
                                  (next_oid w mod 16 ^ 24)%N)) ∧
  (∀ payload w r,
     run (create_building payload) w = Ok r →
     r = serialize_doc (lookup_id (exec (create_building payload) w) "building"
                                  (next_oid w mod 16 ^ 24)%N)) ∧
  (∀ payload w r,
     run (create_element payload) w = Ok r →
     r = serialize_doc (lookup_id (exec (create_element payload) w) "element"
                                  (next_oid w mod 16 ^ 24)%N)) ∧
  (∀ w rs,
     run list_projects w = Ok rs →
     ∃ docs, rs = map (λ d, serialize_doc (Some d)) docs ∧
             ∀ d, d ∈ docs → d ∈ collection w "project") ∧
  (∀ project_id w rs,
     run (list_buildings project_id) w = Ok rs →
     ∃ docs, rs = map (λ d, serialize_doc (Some d)) docs ∧
             ∀ d, d ∈ docs → d ∈ collection w "building") ∧
  (∀ project_id building_id w rs,
     run (list_elements project_id building_id) w = Ok rs →
     ∃ docs, rs = map (λ d, serialize_doc (Some d)) docs ∧
             ∀ d, d ∈ docs → d ∈ collection w "element").
Proof.
  split; [reflexivity|]. split; [reflexivity|]. split.
  { intros d. exists (serialize_value <$> d). split; [apply serialize_doc_Some|].
    split; [apply dom_fmap_L|]. split.
    - intros k v Hk Hv. rewrite lookup_fmap, Hk. cbn.
      destruct v; try reflexivity. by destruct (Hv o).
    - intros k o Hk. by rewrite lookup_fmap, Hk. }
  split; [exact get_project_Ok|]. split; [exact create_project_Ok|].
  split; [exact create_building_Ok|]. split; [exact create_element_Ok|].
  split; [exact list_projects_Ok|]. split; [exact list_buildings_Ok|].
  exact list_elements_Ok.
Qed.

Lemma serialize_doc_spec_witness :
  ∃ r oid d, run (get_project pid0) w1 = Ok r ∧
             ObjectId.parse pid0 = Some oid ∧
             lookup_id w1 "project" oid = Some d ∧
             r = serialize_doc (Some d).
Proof.
  assert (is_Ok (run (get_project pid0) w1) = true) as Hok by (vm_compute; reflexivity).
  destruct (run (get_project pid0) w1) as [r|e] eqn:Hrun; [|discriminate Hok].
  destruct (proj1 (proj2 (proj2 (proj2 serialize_doc_spec))) pid0 w1 r Hrun)
    as (oid & d & Hoid & Hl & Hr).
  exists r, oid, d. split; [reflexivity|]. split; [exact Hoid|]. split; [exact Hl|exact Hr].
Defined.

(** *** CSV export *)

Lemma writerow_header (float_repr : spec_float → string) :
  writerow float_repr csv_header = header_line.
Proof. vm_compute. reflexivity. Qed.

(** Whatever the store holds, a well-formed request ends in a 500: when the
    text is built, reading [app.response_class] raises, and the handler's
    [except Exception] turns every exception of the block into a 500. *)
Lemma export_csv_always_500 (float_repr : spec_float → string) (project_id : string)
    (w : world) :
  ObjectId.is_valid project_id = true →
  ∃ detail, run (export_csv float_repr project_id) w = Raise (HTTPException 500 detail).
Proof.
  intros Hv. unfold run, export_csv, except_Exception, try_except, bind.
  rewrite Hv. cbn [negb].
  destruct (csv_content float_repr project_id w) as [[s|e] w']; by eexists.
Qed.

(** C7 (as stated it fails): for the sample store with one project and no
    element, the export answers 500 instead of a CSV response, and the text
    it had built is a header whose four dimension columns carry the unit, not
    the header of bare labels. *)
Lemma export_csv_empty_project_fails :
  collection w1 "element" = [] ∧
  run (export_csv no_float_repr pid0) w1
    = Raise (HTTPException 500 "'FastAPI' object has no attribute 'response_class'") ∧
  run (csv_content no_float_repr pid0) w1 = Ok header_line ∧
  header_line ≠ unitless_header_line.
Proof.
  split; [vm_compute; reflexivity|]. split; [vm_compute; reflexivity|].
  split; [vm_compute; reflexivity|].
  intros H. apply (f_equal String.length) in H. vm_compute in H. discriminate H.
Qed.

(** C7 (amended): for a well-formed project identifier with no element in
    the store, the CSV text of the export is exactly one row, the header of
    ten columns ID, Type, Configuration, Ouverture, Hauteur(mm), Largeur(mm),
    Profondeur(mm), Épaisseur(mm), Quantité, Notes, ended by CR LF; it is
    built with a single query on the element collection. *)
Theorem csv_content_empty_project (float_repr : spec_float → string)
    (project_id : string) (w : world) :
  ObjectId.is_valid project_id = true →
  (∀ d, d ∈ collection w "element" → d !! "project_id" ≠ Some (VStr project_id)) →
  csv_content float_repr project_id w
  = (Ok header_line,
     World (db w) (next_oid w)
           (trace w ++ [EvFind "element" {["project_id" := VStr project_id]}])) ∧
  header_line = writerow float_repr csv_header ∧
  length csv_header = 10%nat.
Proof.
  intros _ Hnone. split; [|split; [by rewrite writerow_header|reflexivity]].
  unfold csv_content.
  erewrite bind_Ok;
    [|exact (find_all_run "element" {["project_id" := VStr project_id]} w)].
  assert (filter (λ d, matches {["project_id" := VStr project_id]} d = true)
                 (collection w "element") = []) as Hnil.
  { apply elem_of_nil_inv. intros d [Hm Hin]%list_elem_of_filter.
    apply matches_singleton in Hm. by apply (Hnone d). }
  rewrite Hnil. unfold write_csv. cbn [write_rows].
  by rewrite writerow_header.
Qed.

Lemma csv_content_empty_project_witness :
  csv_content no_float_repr pid0 w1
  = (Ok header_line,
     World (db w1) (next_oid w1)
           (trace w1 ++ [EvFind "element" {["project_id" := VStr pid0]}])) ∧
  header_line = writerow no_float_repr csv_header ∧
  length csv_header = 10%nat.
Proof.
  apply (csv_content_empty_project no_float_repr pid0 w1).
  - reflexivity.
  - intros d Hin. vm_compute in Hin. by apply not_elem_of_nil in Hin.
Defined.

(** ** Further properties of the handlers *)

(** *** What a handler does to the store *)

Lemma read_only_ret {A} (a : A) : read_only (ret a).
Proof. by intros w. Qed.

Lemma read_only_raise {A} (e : exn) : read_only (@raise A e).
Proof. by intros w. Qed.

Lemma read_only_bind {A B} (m : M A) (f : A → M B) :
  read_only m → (∀ a, read_only (f a)) → read_only (bind m f).
Proof.
  intros Hm Hf w. specialize (Hm w). unfold exec, bind in *.
  destruct (m w) as [[a|e] w1]; cbn [snd] in *; [|done].
  destruct (Hf a w1) as [Hd Hn]. unfold exec in Hd, Hn.
  destruct Hm as [Hd1 Hn1]. split; congruence.
Qed.

Lemma read_only_try {A} (m : M A) (h : exn → M A) :
  read_only m → (∀ e, read_only (h e)) → read_only (try_except m h).
Proof.
  intros Hm Hh w. specialize (Hm w). unfold exec, try_except in *.
  destruct (m w) as [[a|e] w1]; cbn [snd] in *; [done|].
  destruct (Hh e w1) as [Hd Hn]. unfold exec in Hd, Hn.
  destruct Hm as [Hd1 Hn1]. split; congruence.
Qed.

Lemma read_only_find_one (coll : string) (oid : ObjectId.t) : read_only (find_one coll oid).
Proof. by intros w. Qed.

Lemma read_only_get_documents (coll : string) (q : option document) :
  read_only (get_documents coll q).
Proof. by intros w. Qed.

Lemma read_only_aggregate (coll : string) (p : pipeline) : read_only (aggregate coll p).
Proof. by intros w. Qed.

Lemma read_only_ObjectId_new (s : string) : read_only (ObjectId_new s).
Proof. intros w. unfold ObjectId_new. by destruct (ObjectId.parse s). Qed.

Lemma read_only_except_Exception {A} (m : M A) : read_only m → read_only (except_Exception m).
Proof. intros Hm. apply read_only_try; [done|]. intros e. apply read_only_raise. Qed.

Lemma read_only_except_HTTPException_raise {A} (m : M A) :
  read_only m → read_only (except_HTTPException_raise m).
Proof.
  intros Hm. apply read_only_try; [done|]. intros [c d|errs|cls msg]; apply read_only_raise.
Qed.

Lemma read_only_check_building (building_id : option string) :
  read_only (check_building building_id).
Proof.
  unfold check_building. destruct (str_truthy building_id); [|apply read_only_ret].
  cbv zeta. destruct (negb (ObjectId.is_valid _)); [apply read_only_raise|].
  apply read_only_bind; [apply read_only_ObjectId_new|]. intros boid.
  apply read_only_bind; [apply read_only_find_one|]. intros parent.
  destruct (negb (doc_truthy parent)); [apply read_only_raise|apply read_only_ret].
Qed.

Lemma read_only_write_rows (float_repr : spec_float → string) (elems : list document)
    (output : string) :
  read_only (write_rows float_repr elems output).
Proof.
  revert output. induction elems as [|e elems IH]; intros output; [apply read_only_ret|].
  cbn [write_rows]. apply read_only_bind; [|intros row; apply IH].
  unfold element_row. apply read_only_bind; [|intros notes; apply read_only_ret].
  unfold notes_cell. cbv zeta. destruct (truthy _); [|apply read_only_ret].
  destruct (dict_get e "notes_text"); try apply read_only_raise. apply read_only_ret.
Qed.

Lemma read_only_get_project (project_id : string) : read_only (get_project project_id).
Proof.
  unfold get_project. apply read_only_except_HTTPException_raise.
  apply read_only_bind.
  { unfold PyObjectId_validate. destruct (negb _);
      [apply read_only_raise|apply read_only_ObjectId_new]. }
  intros oid. apply read_only_bind; [apply read_only_find_one|]. intros doc.
  destruct (negb (doc_truthy doc)); [apply read_only_raise|apply read_only_ret].
Qed.

Lemma read_only_list_projects : read_only list_projects.
Proof.
  unfold list_projects. apply read_only_except_Exception. apply read_only_bind;
    [apply read_only_get_documents|intros docs; apply read_only_ret].
Qed.

Lemma read_only_list_buildings (project_id : string) :
  read_only (list_buildings project_id).
Proof.
  unfold list_buildings. apply read_only_except_HTTPException_raise.
  destruct (negb _); [apply read_only_raise|]. apply read_only_bind;
    [apply read_only_get_documents|intros docs; apply read_only_ret].
Qed.

Lemma read_only_list_elements (project_id : string) (building_id : option string) :
  read_only (list_elements project_id building_id).
Proof.
  unfold list_elements. apply read_only_except_HTTPException_raise.
  destruct (negb _); [apply read_only_raise|]. cbv zeta.
  apply read_only_bind.
  { destruct (str_truthy building_id); [|apply read_only_ret].
    destruct (negb _); [apply read_only_raise|apply read_only_ret]. }
  intros query. apply read_only_bind;
    [apply read_only_get_documents|intros docs; apply read_only_ret].
Qed.

Lemma read_only_project_summary (project_id : string) :
  read_only (project_summary project_id).
Proof.
  unfold project_summary. destruct (negb _); [apply read_only_raise|].
  apply read_only_except_Exception. apply read_only_bind;
    [apply read_only_aggregate|intros agg; apply read_only_ret].
Qed.

Lemma read_only_export_csv (float_repr : spec_float → string) (project_id : string) :
  read_only (export_csv float_repr project_id).
Proof.
  unfold export_csv. destruct (negb _); [apply read_only_raise|].
  apply read_only_except_Exception. apply read_only_bind.
  { unfold csv_content. apply read_only_bind; [apply read_only_get_documents|].
    intros elems. apply read_only_write_rows. }
  intros s. apply read_only_bind; [apply read_only_raise|].
  intros cls. apply read_only_ret.
Qed.

(** X1: the reading handlers never write: after [get_project], [list_projects],
    [list_buildings], [list_elements], [project_summary] and [export_csv],
    whatever their arguments and their outcome, every collection and the
    identifier counter are as before. *)
Theorem reading_handlers_never_write (float_repr : spec_float → string) :
  (∀ project_id, read_only (get_project project_id)) ∧
  read_only list_projects ∧
  (∀ project_id, read_only (list_buildings project_id)) ∧
  (∀ project_id building_id, read_only (list_elements project_id building_id)) ∧
  (∀ project_id, read_only (project_summary project_id)) ∧
  (∀ project_id, read_only (export_csv float_repr project_id)).
Proof.
  split_and!.
  - apply read_only_get_project.
  - apply read_only_list_projects.
  - apply read_only_list_buildings.
  - apply read_only_list_elements.
  - apply read_only_project_summary.
  - apply read_only_export_csv.
Qed.

Lemma appended_inserted (w w' : world) (coll : string) (data : document) :
  db w' = db (inserted w coll data) →
  next_oid w' = N.succ (next_oid w) →
  appended w w' coll data.
Proof.
  intros Hdb Hn. unfold appended, collection. rewrite Hdb. cbn [inserted db].
  split; [by rewrite lookup_insert_eq|]. split; [|done].
  intros c Hc. by rewrite lookup_insert_ne.
Qed.

Lemma create_project_run (payload : Project.t) (w : world) :
  ∃ r w', create_project payload w = (Ok r, w') ∧
          appended w w' "project" (Project.model_dump payload).
Proof.
  unfold create_project. rewrite create_tail_run by apply project_dump_encodable.
  do 2 eexists. split; [reflexivity|]. by apply appended_inserted.
Qed.

Lemma create_building_cases (payload : Building.t) (w : world) :
  (∃ e w', create_building payload w = (Raise e, w') ∧ untouched w w') ∨
  (∃ r w', create_building payload w = (Ok r, w') ∧
           appended w w' "building" (Building.model_dump payload)).
Proof.
  unfold create_building.
  destruct (ObjectId.is_valid (Building.project_id payload)) eqn:Hv;
    [|left; by do 2 eexists].
  destruct (proj1 (is_valid_parse _) Hv) as [poid Hp]. cbn [negb].
  rewrite (bind_Ok _ _ _ _ _ (ObjectId_new_parse _ _ w Hp)).
  rewrite (bind_Ok _ _ _ _ _ (find_one_run _ _ _)).
  destruct (lookup_id w "project" poid) as [p|] eqn:Hl; [|left; by do 2 eexists].
  rewrite (lookup_id_truthy _ _ _ _ Hl). cbn [negb].
  rewrite create_tail_run by apply building_dump_encodable.
  right. do 2 eexists. split; [reflexivity|]. by apply appended_inserted.
Qed.

Lemma create_element_cases (payload : Element.t) (w : world) :
  (∃ e w', create_element payload w = (Raise e, w') ∧ untouched w w') ∨
  (∃ r w', create_element payload w = (Ok r, w') ∧
           appended w w' "element" (Element.model_dump payload)).
Proof.
  destruct (ObjectId.is_valid (Element.project_id payload)) eqn:Hv;
    [|left; unfold create_element; rewrite Hv; by do 2 eexists].
  destruct (proj1 (is_valid_parse _) Hv) as [poid Hp].
  destruct (lookup_id w "project" poid) as [p|] eqn:Hl;
    [|left; rewrite (create_element_project_missing _ _ _ Hp Hl); by do 2 eexists].
  rewrite (create_element_project_found _ _ _ _ Hp Hl).
  pose proof (read_only_check_building (Element.building_id payload)
                (World (db w) (next_oid w) (trace w ++ [EvFindOne "project" poid])))
    as [Hdb Hn].
  unfold exec in Hdb, Hn. cbn [db next_oid] in Hdb, Hn.
  destruct (check_building (Element.building_id payload) _) as [[[]|e] w2] eqn:Hcb;
    cbn [snd] in Hdb, Hn.
  - rewrite (bind_Ok _ _ _ _ _ Hcb).
    destruct (encodable (Element.model_dump payload)) eqn:He.
    + rewrite (create_tail_run _ _ _ He). right.
      do 2 eexists. split; [reflexivity|]. apply appended_inserted; cbn [db next_oid].
      * unfold inserted, collection. by rewrite Hdb, Hn.
      * by rewrite Hn.
    + rewrite (create_tail_overflow _ _ _ He). left.
      do 2 eexists. split; [reflexivity|]. by split.
  - rewrite (bind_Raise _ _ _ _ _ Hcb). left. by do 2 eexists.
Qed.

Lemma create_building_appended (payload : Building.t) (w w' : world)
    (r : option document) :
  create_building payload w = (Ok r, w') →
  ObjectId.is_valid (Building.project_id payload) = true ∧
  appended w w' "building" (Building.model_dump payload).
Proof.
  intros Hrun. split.
  - unfold create_building in Hrun.
    destruct (ObjectId.is_valid _); [done|discriminate].
  - destruct (create_building_cases payload w)
      as [(e & w2 & Hrun2 & _)|(r2 & w2 & Hrun2 & Happ)]; rewrite Hrun in Hrun2.
    + discriminate.
    + by injection Hrun2 as <- <-.
Qed.

Lemma create_element_appended (payload : Element.t) (w w' : world) (r : option document) :
  create_element payload w = (Ok r, w') →
  appended w w' "element" (Element.model_dump payload).
Proof.
  intros Hrun.
  destruct (create_element_cases payload w)
    as [(e & w2 & Hrun2 & _)|(r2 & w2 & Hrun2 & Happ)]; rewrite Hrun in Hrun2.
  - discriminate.
  - by injection Hrun2 as <- <-.
Qed.

(** X2: what a create handler writes.  When [create_project],
    [create_building] or [create_element] answers, it has added exactly one
    document, the dumped payload under the next identifier, at the end of
    its own collection, every other collection being as before.  When
    [create_building] or [create_element] refuses with 400 or 404, which
    only their checks in front of the insert do, every collection and the
    identifier counter are as they were. *)
Theorem create_handlers_write_once :
  (∀ payload w r w',
     create_project payload w = (Ok r, w') →
     appended w w' "project" (Project.model_dump payload)) ∧
  (∀ payload w r w',
     create_building payload w = (Ok r, w') →
     appended w w' "building" (Building.model_dump payload)) ∧
  (∀ payload w r w',
     create_element payload w = (Ok r, w') →
     appended w w' "element" (Element.model_dump payload)) ∧
  (∀ payload w c d w',
     create_building payload w = (Raise (HTTPException c d), w') →
     c = 400 ∨ c = 404 → untouched w w') ∧
  (∀ payload w c d w',
     create_element payload w = (Raise (HTTPException c d), w') →
     c = 400 ∨ c = 404 → untouched w w').
Proof.
  split_and!.
  - intros payload w r w' Hrun.
    destruct (create_project_run payload w) as (r2 & w2 & Hrun2 & Happ).
    rewrite Hrun in Hrun2. by injection Hrun2 as <- <-.
  - intros payload w r w' Hrun. by destruct (create_building_appended _ _ _ _ Hrun).
  - intros payload w r w' Hrun. by apply (create_element_appended _ _ _ _ Hrun).
  - intros payload w c d w' Hrun _.
    destruct (create_building_cases payload w)
      as [(e & w2 & Hrun2 & Hu)|(r2 & w2 & Hrun2 & _)]; rewrite Hrun in Hrun2.
    + by injection Hrun2 as _ <-.
    + discriminate.
  - intros payload w c d w' Hrun _.
    destruct (create_element_cases payload w)
      as [(e & w2 & Hrun2 & Hu)|(r2 & w2 & Hrun2 & _)]; rewrite Hrun in Hrun2.
    + by injection Hrun2 as _ <-.
    + discriminate.
Qed.

Lemma create_handlers_write_once_witness :
  ∃ r w', create_building (Building.Make pid0 "Bloc C" None) w1 = (Ok r, w') ∧
          appended w1 w' "building" (Building.model_dump (Building.Make pid0 "Bloc C" None)).
Proof.
  assert (is_Ok (run (create_building (Building.Make pid0 "Bloc C" None)) w1) = true)
    as Hok by (vm_compute; reflexivity).
  unfold run in Hok.
  destruct (create_building (Building.Make pid0 "Bloc C" None) w1)
    as [[r|e] w'] eqn:Hrun; [|discriminate Hok].
  exists r, w'. split; [reflexivity|].
  exact (proj1 (proj2 create_handlers_write_once) _ _ _ _ Hrun).
Defined.

(** *** Reading one project back *)

Lemma lookup_id_appended_new (w w' : world) (coll : string) (data : document) :
  lookup_id w coll (next_oid w) = None → appended w w' coll data →
  lookup_id w' coll (next_oid w) = Some (<["_id" := VObjectId (next_oid w)]> data).
Proof.
  intros Hnone (Hc & _ & _). unfold lookup_id in *. rewrite Hc, filter_app.
  apply head_None in Hnone. rewrite Hnone.
  rewrite filter_cons_True; [done|].
  unfold has_id. apply bool_decide_eq_true. apply lookup_insert_eq.
Qed.

Lemma get_project_found (project_id : string) (oid : ObjectId.t) (d : document)
    (w : world) :
  ObjectId.parse project_id = Some oid →
  lookup_id w "project" oid = Some d →
  get_project project_id w
  = (Ok (serialize_doc (Some d)),
     World (db w) (next_oid w) (trace w ++ [EvFindOne "project" oid])).
Proof.
  intros Hp Hl. unfold get_project, except_HTTPException_raise, try_except,
    PyObjectId_validate.
  rewrite (proj2 (is_valid_parse _) (ex_intro _ oid Hp)). cbn [negb].
  rewrite (bind_Ok _ _ _ _ _ (ObjectId_new_parse _ _ w Hp)).
  rewrite (bind_Ok _ _ _ _ _ (find_one_run _ _ _)), Hl.
  by rewrite (lookup_id_truthy _ _ _ _ Hl).
Qed.

Lemma get_project_missing (project_id : string) (oid : ObjectId.t) (w : world) :
  ObjectId.parse project_id = Some oid →
  lookup_id w "project" oid = None →
  get_project project_id w
  = (Raise (HTTPException 404 "Project not found"),
     World (db w) (next_oid w) (trace w ++ [EvFindOne "project" oid])).
Proof.
  intros Hp Hl. unfold get_project, except_HTTPException_raise, try_except,
    PyObjectId_validate.
  rewrite (proj2 (is_valid_parse _) (ex_intro _ oid Hp)). cbn [negb].
  rewrite (bind_Ok _ _ _ _ _ (ObjectId_new_parse _ _ w Hp)).
  by rewrite (bind_Ok _ _ _ _ _ (find_one_run _ _ _)), Hl.
Qed.

(** X3: [get_project] on a well-formed identifier makes exactly one lookup:
    when no project has the identifier the answer is 404 "Project not found"
    (the handler's own [HTTPException] passes its [except] clauses), and when
    one has it the answer is that document, serialized. *)
Theorem get_project_well_formed (project_id : string) (oid : ObjectId.t) (w : world) :
  ObjectId.parse project_id = Some oid →
  (lookup_id w "project" oid = None →
     get_project project_id w
     = (Raise (HTTPException 404 "Project not found"),
        World (db w) (next_oid w) (trace w ++ [EvFindOne "project" oid])) ∧
     classify (HTTPException 404 "Project not found") = NotFound) ∧
  (∀ d, lookup_id w "project" oid = Some d →
     get_project project_id w
     = (Ok (serialize_doc (Some d)),
        World (db w) (next_oid w) (trace w ++ [EvFindOne "project" oid]))).
Proof.
  intros Hp. split.
  - intros Hl. split; [by apply get_project_missing|reflexivity].
  - intros d Hl. by apply get_project_found.
Qed.

Lemma get_project_well_formed_witness :
  get_project "ffffffffffffffffffffffff" w1
  = (Raise (HTTPException 404 "Project not found"),
     World (db w1) (next_oid w1)
           (trace w1 ++ [EvFindOne "project" (2 ^ 96 - 1)%N])).
Proof.
  apply (get_project_well_formed "ffffffffffffffffffffffff" (2 ^ 96 - 1)%N w1).
  - vm_compute. reflexivity.
  - vm_compute. reflexivity.
Defined.

Lemma serialize_project_dump (p : Project.t) :
  serialize_value <$> Project.model_dump p = Project.model_dump p.
Proof.
  unfold Project.model_dump. rewrite !fmap_insert, fmap_empty.
  by destruct (Project.location p), (Project.contact_name p), (Project.contact_phone p),
    (Project.photo_url p).
Qed.

(** X4: creating a project and reading it back.  On a store in which the
    identifier handed out next is not yet that of a project and lies within
    the 12 bytes of an identifier, [create_project] answers with the stored
    record, whose ["_id"] is the string form of the new identifier (the
    other fields are those of the dumped payload), and [get_project] on that
    string then answers with the same document. *)
Theorem create_project_then_get (payload : Project.t) (w : world) :
  lookup_id w "project" (next_oid w) = None →
  (next_oid w < 16 ^ 24)%N →
  let id := ObjectId.to_string (next_oid w) in
  let doc := <["_id" := VStr id]> (Project.model_dump payload) in
  ∃ w', create_project payload w = (Ok (Some doc), w') ∧
        run (get_project id) w' = Ok (Some doc).
Proof.
  intros Hnone Hlt id doc.
  destruct (create_project_run payload w) as (r & w' & Hrun & Happ).
  pose proof (lookup_id_appended_new _ _ _ _ Hnone Happ) as Hl.
  assert (serialize_doc (Some (<["_id" := VObjectId (next_oid w)]> (Project.model_dump payload)))
          = Some doc) as Hser.
  { rewrite serialize_doc_Some, fmap_insert, serialize_project_dump. reflexivity. }
  assert (ObjectId.parse id = Some (next_oid w)) as Hp.
  { unfold id. rewrite parse_to_string. f_equal. by apply N.mod_small. }
  exists w'. split.
  - rewrite Hrun. f_equal. f_equal.
    pose proof (create_project_Ok payload w r) as Hr.
    unfold run, exec in Hr. rewrite Hrun in Hr. cbn [fst snd] in Hr.
    rewrite (Hr eq_refl), N.mod_small by done. by rewrite Hl.
  - unfold run. rewrite (get_project_found _ _ _ _ Hp Hl). cbn [fst]. by rewrite Hser.
Qed.

Lemma create_project_then_get_witness :
  ∃ w', create_project sample_project empty_world
          = (Ok (Some (<["_id" := VStr pid0]> (Project.model_dump sample_project))), w') ∧
        run (get_project pid0) w'
          = Ok (Some (<["_id" := VStr pid0]> (Project.model_dump sample_project))).
Proof.
  apply (create_project_then_get sample_project empty_world); reflexivity.
Defined.

(** *** Listings *)

Lemma filter_all {A} (P : A → Prop) `{!∀ x, Decision (P x)} (l : list A) :
  (∀ x, x ∈ l → P x) → filter P l = l.
Proof.
  induction l as [|x l IH]; intros Hall; [done|].
  rewrite filter_cons_True by (apply Hall; left). f_equal. apply IH.
  intros y Hy. apply Hall. by right.
Qed.

Lemma list_projects_run (w : world) :
  list_projects w
  = (Ok (map (λ d, serialize_doc (Some d)) (collection w "project")),
     World (db w) (next_oid w) (trace w ++ [EvFind "project" ∅])).
Proof.
  unfold list_projects, except_Exception, try_except.
  erewrite bind_Ok; [|exact (find_all_run "project" ∅ w)].
  unfold ret, serialize_all. do 3 f_equal.
  apply filter_all. intros d _. unfold matches. apply bool_decide_eq_true.
  apply map_empty_subseteq.
Qed.

(** X5: whenever [list_projects] answers, it has made one query with the
    empty filter, and the answer holds every stored project, each passed
    through [serialize_doc], in store order: one entry per project and no
    other. *)
Theorem list_projects_all (w w' : world) (rs : list (option document)) :
  list_projects w = (Ok rs, w') →
  rs = map (λ d, serialize_doc (Some d)) (collection w "project") ∧
  length rs = length (collection w "project") ∧
  trace w' = (trace w ++ [EvFind "project" ∅])%list.
Proof.
  rewrite list_projects_run. intros [= <- <-]. by rewrite length_map.
Qed.

Lemma list_projects_all_witness :
  ∃ rs w', list_projects w1 = (Ok rs, w') ∧
           rs = map (λ d, serialize_doc (Some d)) (collection w1 "project") ∧
           length rs = length (collection w1 "project") ∧
           trace w' = (trace w1 ++ [EvFind "project" ∅])%list.
Proof.
  assert (is_Ok (run list_projects w1) = true) as Hok by (vm_compute; reflexivity).
  unfold run in Hok.
  destruct (list_projects w1) as [[rs|e] w'] eqn:Hrun; [|discriminate Hok].
  exists rs, w'. split; [reflexivity|]. exact (list_projects_all w1 w' rs Hrun).
Defined.

Lemma list_buildings_run (project_id : string) (w : world) :
  ObjectId.is_valid project_id = true →
  list_buildings project_id w
  = (Ok (map (λ d, serialize_doc (Some d))
           (filter (λ d, d !! "project_id" = Some (VStr project_id))
                   (collection w "building"))),
     World (db w) (next_oid w)
           (trace w ++ [EvFind "building" {["project_id" := VStr project_id]}])).
Proof.
  intros Hv. unfold list_buildings, except_HTTPException_raise, try_except.
  rewrite Hv. cbn [negb].
  erewrite bind_Ok;
    [|exact (find_all_run "building" {["project_id" := VStr project_id]} w)].
  unfold ret, serialize_all. do 3 f_equal.
  apply list_filter_iff. intros d. apply matches_singleton.
Qed.

Lemma list_buildings_refused (project_id : string) (w : world) :
  ObjectId.is_valid project_id = false →
  list_buildings project_id w = (Raise (HTTPException 400 "Invalid project_id"), w).
Proof.
  intros Hv. unfold list_buildings, except_HTTPException_raise, try_except.
  by rewrite Hv.
Qed.

(** X6: [list_buildings] refuses an identifier that [ObjectId.is_valid]
    rejects with 400 before any store call; on one it accepts it makes one
    query and answers with the stored buildings whose [project_id] field is
    that very string, each passed through [serialize_doc], in store order.
    It does not look the project up: an identifier of no project gives the
    empty list, not a 404. *)
Theorem list_buildings_outcomes (project_id : string) (w : world) :
  (ObjectId.is_valid project_id = false →
     list_buildings project_id w = (Raise (HTTPException 400 "Invalid project_id"), w)) ∧
  (ObjectId.is_valid project_id = true →
     list_buildings project_id w
     = (Ok (map (λ d, serialize_doc (Some d))
              (filter (λ d, d !! "project_id" = Some (VStr project_id))
                      (collection w "building"))),
        World (db w) (next_oid w)
              (trace w ++ [EvFind "building" {["project_id" := VStr project_id]}]))).
Proof.
  split; [apply list_buildings_refused|apply list_buildings_run].
Qed.

Lemma list_buildings_outcomes_witness :
  list_buildings "ffffffffffffffffffffffff" w_buildings
  = (Ok [],
     World (db w_buildings) (next_oid w_buildings)
           (trace w_buildings
            ++ [EvFind "building" {["project_id" := VStr "ffffffffffffffffffffffff"]}])) ∧
  list_buildings "12" w_buildings = (Raise (HTTPException 400 "Invalid project_id"), w_buildings).
Proof.
  destruct (list_buildings_outcomes "ffffffffffffffffffffffff" w_buildings) as [_ Hok].
  destruct (list_buildings_outcomes "12" w_buildings) as [Hbad _].
  split; [|by apply Hbad].
  rewrite Hok by reflexivity. f_equal.
Defined.

(** X7: in [list_elements] both [ObjectId.is_valid] checks come before the
    query: a [project_id] that [ObjectId.is_valid] rejects, or one that it
    accepts together with a non-empty [building_id] that it rejects, is
    refused with 400 and the world is as before, no store call made. *)
Theorem list_elements_checks_before_query (project_id : string)
    (building_id : option string) (w : world) :
  (ObjectId.is_valid project_id = false →
     list_elements project_id building_id w
     = (Raise (HTTPException 400 "Invalid project_id"), w)) ∧
  (∀ bid, ObjectId.is_valid project_id = true →
     building_id = Some bid → bid ≠ "" → ObjectId.is_valid bid = false →
     list_elements project_id building_id w
     = (Raise (HTTPException 400 "Invalid building_id"), w)).
Proof.
  split.
  - intros Hv. unfold list_elements, except_HTTPException_raise, try_except.
    by rewrite Hv.
  - intros bid Hv -> Hne Hb.
    unfold list_elements, except_HTTPException_raise, try_except, str_truthy.
    rewrite Hv. cbn [negb].
    assert (String.eqb bid "" = false) as -> by (by apply String.eqb_neq).
    cbn [negb]. change (default "" (Some bid)) with bid. by rewrite Hb.
Qed.

Lemma list_elements_checks_before_query_witness :
  list_elements pid0 (Some "xyz") w_elements
  = (Raise (HTTPException 400 "Invalid building_id"), w_elements) ∧
  list_elements "xyz" (Some bid1) w_elements
  = (Raise (HTTPException 400 "Invalid project_id"), w_elements).
Proof.
  split.
  - apply (proj2 (list_elements_checks_before_query pid0 (Some "xyz") w_elements) "xyz");
      [reflexivity|reflexivity|discriminate|reflexivity].
  - apply (proj1 (list_elements_checks_before_query "xyz" (Some bid1) w_elements)).
    reflexivity.
Defined.

(** *** Creating, then listing and summing *)

Lemma element_dump_project_id (e : Element.t) :
  Element.model_dump e !! "project_id" = Some (VStr (Element.project_id e)).
Proof. unfold Element.model_dump. apply lookup_insert_eq. Qed.


Lemma create_element_Ok_valid (payload : Element.t) (w w' : world) (r : option document) :
  create_element payload w = (Ok r, w') →
  ObjectId.is_valid (Element.project_id payload) = true.
Proof.
  unfold create_element. destruct (ObjectId.is_valid _); [done|discriminate].
Qed.

Lemma filter_project_appended (payload : Element.t) (w w' : world) (pid : string) :
  appended w w' "element" (Element.model_dump payload) →
  filter (λ d, d !! "project_id" = Some (VStr pid)) (collection w' "element")
  = (filter (λ d, d !! "project_id" = Some (VStr pid)) (collection w "element")
     ++ if decide (pid = Element.project_id payload)
        then [<["_id" := VObjectId (next_oid w)]> (Element.model_dump payload)]
        else [])%list.
Proof.
  intros (Hc & _ & _). rewrite Hc, filter_app. f_equal.
  rewrite filter_cons, filter_nil.
  rewrite lookup_insert_ne by done. rewrite element_dump_project_id.
  destruct (decide (pid = Element.project_id payload)) as [->|Hne].
  - by rewrite decide_True.
  - rewrite decide_False; [done|]. congruence.
Qed.

(** X8: a created element appears in the listing of its project.  When
    [create_element] succeeds, the listing of the element's project (without
    building filter) afterwards is the listing before followed by the new
    document, serialized; the listing of any other project is unchanged. *)
Theorem create_element_then_list (payload : Element.t) (w w' : world)
    (r : option document) :
  create_element payload w = (Ok r, w') →
  let pid := Element.project_id payload in
  let new := <["_id" := VObjectId (next_oid w)]> (Element.model_dump payload) in
  (∃ before,
     run (list_elements pid None) w = Ok before ∧
     run (list_elements pid None) w' = Ok (before ++ [serialize_doc (Some new)])%list) ∧
  (∀ pid', pid' ≠ pid →
     run (list_elements pid' None) w' = run (list_elements pid' None) w).
Proof.
  intros Hrun pid new.
  pose proof (create_element_Ok_valid _ _ _ _ Hrun) as Hv.
  pose proof (create_element_appended _ _ _ _ Hrun) as Happ.
  split.
  - eexists. unfold run.
    rewrite !(list_elements_unfiltered pid None _ Hv eq_refl). cbn [fst].
    split; [reflexivity|]. f_equal.
    rewrite (filter_project_appended _ _ _ pid Happ), decide_True by done.
    unfold serialize_all. by rewrite map_app.
  - intros pid' Hne. unfold run.
    destruct (ObjectId.is_valid pid') eqn:Hv'.
    + rewrite !(list_elements_unfiltered pid' None _ Hv' eq_refl). cbn [fst].
      rewrite (filter_project_appended _ _ _ pid' Happ), decide_False by done.
      by rewrite app_nil_r.
    + unfold list_elements, except_HTTPException_raise, try_except. by rewrite Hv'.
Qed.

Lemma create_element_then_list_witness :
  ∃ r w' before,
    create_element (sample_element None Element.porte None 7) w1 = (Ok r, w') ∧
    run (list_elements pid0 None) w1 = Ok before ∧
    run (list_elements pid0 None) w'
    = Ok (before ++ [serialize_doc
                       (Some (<["_id" := VObjectId (next_oid w1)]>
                                (Element.model_dump
                                   (sample_element None Element.porte None 7))))])%list.
Proof.
  assert (is_Ok (run (create_element (sample_element None Element.porte None 7)) w1) = true)
    as Hok by (vm_compute; reflexivity).
  unfold run in Hok.
  destruct (create_element (sample_element None Element.porte None 7) w1)
    as [[r|e] w'] eqn:Hrun; [|discriminate Hok].
  destruct (create_element_then_list _ _ _ _ Hrun) as [(before & Hb & Ha) _].
  exists r, w', before. split; [reflexivity|]. split; [exact Hb|exact Ha].
Defined.





(** X10: [project_summary] refuses an identifier that [ObjectId.is_valid]
    rejects with 400 before any store call, and for one that it accepts,
    with no element of that project (an unknown project among them: the
    project is not looked up), it answers with total 0 and no items, after
    one aggregation call. *)
Theorem project_summary_edges (project_id : string) (w : world) :
  (ObjectId.is_valid project_id = false →
     project_summary project_id w = (Raise (HTTPException 400 "Invalid project_id"), w)) ∧
  (ObjectId.is_valid project_id = true →
     (∀ d, d ∈ collection w "element" → d !! "project_id" ≠ Some (VStr project_id)) →
     project_summary project_id w
     = (Ok (Summary 0 []),
        World (db w) (next_oid w)
              (trace w ++ [EvAggregate "element" (summary_pipeline project_id)]))).
Proof.
  split.
  - intros Hv. unfold project_summary. by rewrite Hv.
  - intros Hv Hnone. unfold project_summary. rewrite Hv. cbn [negb].
    unfold except_Exception, try_except.
    rewrite (bind_Ok _ _ _ _ _ (aggregate_run _ _ _)).
    assert (filter (λ d, matches (match_ (summary_pipeline project_id)) d = true)
                   (collection w "element") = []) as ->; [|reflexivity].
    apply elem_of_nil_inv. intros d [Hm Hin]%list_elem_of_filter.
    apply matches_singleton in Hm. by apply (Hnone d).
Qed.

Lemma project_summary_edges_witness :
  project_summary "ffffffffffffffffffffffff" w_summary
  = (Ok (Summary 0 []),
     World (db w_summary) (next_oid w_summary)
           (trace w_summary
            ++ [EvAggregate "element" (summary_pipeline "ffffffffffffffffffffffff")])) ∧
  project_summary "zz" w_summary = (Raise (HTTPException 400 "Invalid project_id"), w_summary).
Proof.
  split.
  - apply (proj2 (project_summary_edges "ffffffffffffffffffffffff" w_summary));
      [reflexivity|].
    intros d Hin Hd.
    assert (filter (λ d, d !! "project_id" = Some (VStr "ffffffffffffffffffffffff"))
                   (collection w_summary "element") = []) as Hnil by reflexivity.
    eapply (filter_nil_not_elem_of _ _ d Hnil); [exact Hd|exact Hin].
  - by apply (proj1 (project_summary_edges "zz" w_summary)).
Defined.

(** X11: [export_csv] never answers with a file.  An identifier that
    [ObjectId.is_valid] rejects is refused with 400 before any store call;
    for every identifier that it accepts, whatever the store holds, the
    answer is a 500, and the store is not modified. *)
Theorem export_csv_outcomes (float_repr : spec_float → string) (project_id : string)
    (w : world) :
  (ObjectId.is_valid project_id = false →
     export_csv float_repr project_id w
     = (Raise (HTTPException 400 "Invalid project_id"), w)) ∧
  (ObjectId.is_valid project_id = true →
     ∃ detail, run (export_csv float_repr project_id) w
               = Raise (HTTPException 500 detail)) ∧
  is_Ok (run (export_csv float_repr project_id) w) = false.
Proof.
  split; [|split].
  - intros Hv. unfold export_csv. by rewrite Hv.
  - by apply export_csv_always_500.
  - destruct (ObjectId.is_valid project_id) eqn:Hv.
    + destruct (export_csv_always_500 float_repr project_id w Hv) as [detail ->]. done.
    + unfold run, export_csv. by rewrite Hv.
Qed.

Lemma export_csv_outcomes_witness :
  (∃ detail, run (export_csv no_float_repr pid0) w_elements
             = Raise (HTTPException 500 detail)) ∧
  export_csv no_float_repr "" w_elements
  = (Raise (HTTPException 400 "Invalid project_id"), w_elements).
Proof.
  split.
  - by apply (proj1 (proj2 (export_csv_outcomes no_float_repr pid0 w_elements))).
  - by apply (proj1 (export_csv_outcomes no_float_repr "" w_elements)).
Defined.

(** *** Serialization *)

Lemma serialize_value_idempotent (v : value) :
  serialize_value (serialize_value v) = serialize_value v.
Proof. by destruct v. Qed.

(** X12: a serialized document holds no ObjectId at any key, and serializing
    it again changes nothing. *)
Theorem serialize_doc_idempotent (doc : option document) :
  serialize_doc (serialize_doc doc) = serialize_doc doc ∧
  ∀ k o, (serialize_doc doc ≫= λ d, d !! k) ≠ Some (VObjectId o).
Proof.
  destruct doc as [d|]; [|by split].
  rewrite !serialize_doc_Some. split.
  - f_equal. rewrite <- map_fmap_compose. apply map_fmap_ext.
    intros k v _. apply serialize_value_idempotent.
  - intros k o. cbn. rewrite lookup_fmap.
    destruct (d !! k) as [v|]; [|done]. by destruct v.
Qed.

(** *** Validation of the three schemas *)

Lemma ElementType_of_str_Some (s : string) (t : Element.ElementType) :
  Element.ElementType_of_str s = Some t ↔ s = Element.ElementType_str t.
Proof.
  unfold Element.ElementType_of_str. cbn [find]. split.
  - repeat (destruct (String.eqb _ s) eqn:E;
            [apply String.eqb_eq in E; by intros [= <-]|clear E]).
    discriminate.
  - intros ->. by destruct t.
Qed.

Lemma Opening_of_str_Some (s : string) (o : Element.Opening) :
  Element.Opening_of_str s = Some o ↔ s = Element.Opening_str o.
Proof.
  unfold Element.Opening_of_str. cbn [find]. split.
  - repeat (destruct (String.eqb _ s) eqn:E;
            [apply String.eqb_eq in E; by intros [= <-]|clear E]).
    discriminate.
  - intros ->. by destruct o.
Qed.

Lemma ProjectType_of_str_Some (s : string) (t : Project.ProjectType) :
  Project.ProjectType_of_str s = Some t ↔ s = Project.ProjectType_str t.
Proof.
  unfold Project.ProjectType_of_str. cbn [find]. split.
  - repeat (destruct (String.eqb _ s) eqn:E;
            [apply String.eqb_eq in E; by intros [= <-]|clear E]).
    discriminate.
  - intros ->. by destruct t.
Qed.

Lemma optional_float_ge_inr (field : string) (v v' : option spec_float) :
  optional_float_ge field Element.zero v = inr v' ↔ v' = v ∧ nonneg v = true.
Proof.
  unfold optional_float_ge, nonneg. destruct v as [f|].
  - destruct (SFleb Element.zero f); split; try discriminate.
    + by intros [= <-].
    + by intros [-> _].
    + by intros [_ ?].
  - split; [by intros [= <-]|by intros [-> _]].
Qed.

Lemma nonneg_not_negative (v : option spec_float) : nonneg v = true → negative v = false.
Proof.
  destruct v as [f|]; [|done]. cbn. unfold SFleb, SFltb, Element.zero.
  destruct f as [s|s| |s m e]; try destruct s; cbn; congruence.
Qed.

Lemma int_ge_inr (field : string) (v : option Z) (n : Z) :
  int_ge field 1 1 v = inr n ↔ n = default 1 v ∧ 1 ≤ n.
Proof.
  unfold int_ge. destruct v as [q|]; cbn.
  - destruct (1 <=? q) eqn:E; split; try discriminate.
    + intros [= <-]. split; [done|]. by apply Z.leb_le.
    + by intros [-> _].
    + intros [-> Hle]. apply Z.leb_le in Hle. congruence.
  - split; [intros [= <-]; split; [done|lia]|by intros [-> _]].
Qed.

Lemma element_validate_inr (body : Element.raw) (p : Element.t) :
  Element.validate body = inr p ↔
  Element.raw_project_id body = Some (Element.project_id p) ∧
  Element.raw_element_type body = Some (Element.ElementType_str (Element.element_type p)) ∧
  Element.raw_opening body = Element.Opening_str <$> Element.opening p ∧
  (Element.height_mm p = Element.raw_height_mm body ∧ nonneg (Element.raw_height_mm body) = true) ∧
  (Element.width_mm p = Element.raw_width_mm body ∧ nonneg (Element.raw_width_mm body) = true) ∧
  (Element.depth_mm p = Element.raw_depth_mm body ∧ nonneg (Element.raw_depth_mm body) = true) ∧
  (Element.thickness_mm p = Element.raw_thickness_mm body
   ∧ nonneg (Element.raw_thickness_mm body) = true) ∧
  (Element.quantity p = default 1 (Element.raw_quantity body) ∧ 1 ≤ Element.quantity p) ∧
  Element.building_id p = Element.raw_building_id body ∧
  Element.configuration p = Element.raw_configuration body ∧
  Element.notes_text p = Element.raw_notes_text body ∧
  Element.notes_audio_url p = Element.raw_notes_audio_url body ∧
  Element.photo_url p = Element.raw_photo_url body.
Proof.
  split.
  - unfold Element.validate.
    destruct (required "project_id" _) as [e1|x1] eqn:E1; [discriminate|].
    destruct (match required "element_type" _ with inr _ => _ | inl _ => _ end)
      as [e2|x2] eqn:E2; [discriminate|].
    destruct (match Element.raw_opening body with None => _ | Some _ => _ end)
      as [e3|x3] eqn:E3; [discriminate|].
    destruct (optional_float_ge "height_mm" _ _) as [e4|x4] eqn:E4; [discriminate|].
    destruct (optional_float_ge "width_mm" _ _) as [e5|x5] eqn:E5; [discriminate|].
    destruct (optional_float_ge "depth_mm" _ _) as [e6|x6] eqn:E6; [discriminate|].
    destruct (optional_float_ge "thickness_mm" _ _) as [e7|x7] eqn:E7; [discriminate|].
    destruct (int_ge "quantity" 1 1 _) as [e8|x8] eqn:E8; [discriminate|].
    intros [= <-]. cbn.
    apply optional_float_ge_inr in E4, E5, E6, E7. apply int_ge_inr in E8.
    split_and!; try tauto.
    + destruct (Element.raw_project_id body); [|discriminate]. by injection E1 as ->.
    + destruct (Element.raw_element_type body) as [ty|]; [|discriminate].
      cbn in E2. unfold literal in E2.
      destruct (Element.ElementType_of_str ty) eqn:Ety; [|discriminate].
      injection E2 as ->. f_equal. by apply ElementType_of_str_Some.
    + destruct (Element.raw_opening body) as [op|]; [|by injection E3 as <-].
      unfold literal in E3.
      destruct (Element.Opening_of_str op) eqn:Eop; [|discriminate].
      injection E3 as <-. cbn. f_equal. by apply Opening_of_str_Some.
  - intros (H1 & H2 & H3 & [H4 N4] & [H5 N5] & [H6 N6] & [H7 N7] & [H8 N8]
            & H9 & H10 & H11 & H12 & H13).
    unfold Element.validate. rewrite H1, H2, H3. cbn [required].
    unfold literal. rewrite (proj2 (ElementType_of_str_Some _ _) eq_refl).
    assert (match Element.Opening_str <$> Element.opening p with
            | Some s => match match Element.Opening_of_str s with
                              | Some a => inr a
                              | None => inl [("opening", literal_error)]
                              end with
                        | inl e => inl e
                        | inr o => inr (Some o)
                        end
            | None => inr None
            end = (inr (Element.opening p) : error_details + option Element.Opening)) as ->.
    { by destruct (Element.opening p) as [[]|]. }
    rewrite (proj2 (optional_float_ge_inr "height_mm" _ _) (conj H4 N4)).
    rewrite (proj2 (optional_float_ge_inr "width_mm" _ _) (conj H5 N5)).
    rewrite (proj2 (optional_float_ge_inr "depth_mm" _ _) (conj H6 N6)).
    rewrite (proj2 (optional_float_ge_inr "thickness_mm" _ _) (conj H7 N7)).
    rewrite (proj2 (int_ge_inr "quantity" _ _) (conj H8 N8)).
    rewrite <- H9, <- H10, <- H11, <- H12, <- H13. by destruct p.
Qed.

Lemma nonneg_iff_not_negative (v : option spec_float) :
  not_nan v → nonneg v = true ↔ negative v = false.
Proof.
  unfold not_nan. destruct v as [f|]; [|done]. cbn. unfold SFleb, SFltb, Element.zero.
  destruct f as [s|s| |s m e]; try destruct s; cbn; intros Hn; split; congruence.
Qed.

(** X13: what [Element] accepts.  For a body whose [_mm] values are numbers
    (not NaN), the body validates to the record [p] exactly when [project_id]
    and [element_type] are present, [element_type] and a present [opening]
    are members of their closed sets, no present [_mm] value is negative, and
    [quantity] is absent (then 1) or at least 1; [p] then holds the body's
    values, the other optional fields copied as they are.  Strings are not
    constrained: the empty string is accepted for every string field. *)
Theorem element_validate_accepts (body : Element.raw) (p : Element.t) :
  not_nan (Element.raw_height_mm body) →
  not_nan (Element.raw_width_mm body) →
  not_nan (Element.raw_depth_mm body) →
  not_nan (Element.raw_thickness_mm body) →
  Element.validate body = inr p ↔
  Element.raw_project_id body = Some (Element.project_id p) ∧
  Element.raw_element_type body = Some (Element.ElementType_str (Element.element_type p)) ∧
  Element.raw_opening body = Element.Opening_str <$> Element.opening p ∧
  (Element.height_mm p = Element.raw_height_mm body
   ∧ negative (Element.raw_height_mm body) = false) ∧
  (Element.width_mm p = Element.raw_width_mm body
   ∧ negative (Element.raw_width_mm body) = false) ∧
  (Element.depth_mm p = Element.raw_depth_mm body
   ∧ negative (Element.raw_depth_mm body) = false) ∧
  (Element.thickness_mm p = Element.raw_thickness_mm body
   ∧ negative (Element.raw_thickness_mm body) = false) ∧
  (Element.quantity p = default 1 (Element.raw_quantity body) ∧ 1 ≤ Element.quantity p) ∧
  Element.building_id p = Element.raw_building_id body ∧
  Element.configuration p = Element.raw_configuration body ∧
  Element.notes_text p = Element.raw_notes_text body ∧
  Element.notes_audio_url p = Element.raw_notes_audio_url body ∧
  Element.photo_url p = Element.raw_photo_url body.
Proof.
  intros N1 N2 N3 N4. rewrite element_validate_inr.
  rewrite (nonneg_iff_not_negative _ N1), (nonneg_iff_not_negative _ N2),
    (nonneg_iff_not_negative _ N3), (nonneg_iff_not_negative _ N4). reflexivity.
Qed.

Lemma element_validate_accepts_witness :
  Element.validate sample_full_body
  = inr (Element.Make pid0 (Some "") Element.dressing (Some "") (Some Element.tirant)
                      (Some (S754_zero true)) None None None 1 (Some "") None None).
Proof.
  apply (element_validate_accepts sample_full_body); try discriminate.
  cbn. split_and!; first [reflexivity | lia].
Defined.

Lemma element_validate_errors (body : Element.raw) (errs : error_details) :
  Element.validate body = inl errs →
  errs
  = (errors_of (required "project_id" (Element.raw_project_id body))
     ++ errors_of (match required "element_type" (Element.raw_element_type body) with
                   | inr s => literal "element_type" Element.ElementType_of_str s
                   | inl e => inl e
                   end)
     ++ errors_of (match Element.raw_opening body with
                   | None => inr None
                   | Some s =>
                       match literal "opening" Element.Opening_of_str s with
                       | inr o => inr (Some o)
                       | inl e => inl e
                       end
                   end : error_details + option Element.Opening)
     ++ errors_of (optional_float_ge "height_mm" Element.zero (Element.raw_height_mm body))
     ++ errors_of (optional_float_ge "width_mm" Element.zero (Element.raw_width_mm body))
     ++ errors_of (optional_float_ge "depth_mm" Element.zero (Element.raw_depth_mm body))
     ++ errors_of (optional_float_ge "thickness_mm" Element.zero
                     (Element.raw_thickness_mm body))
     ++ errors_of (int_ge "quantity" 1 1 (Element.raw_quantity body)))%list.
Proof.
  unfold Element.validate.
  destruct (required "project_id" _) as [e1|x1]; [by intros [= <-]|].
  destruct (match required "element_type" _ with inr _ => _ | inl _ => _ end) as [e2|x2];
    [by intros [= <-]|].
  destruct (match Element.raw_opening body with None => _ | Some _ => _ end) as [e3|x3];
    [by intros [= <-]|].
  destruct (optional_float_ge "height_mm" _ _) as [e4|x4]; [by intros [= <-]|].
  destruct (optional_float_ge "width_mm" _ _) as [e5|x5]; [by intros [= <-]|].
  destruct (optional_float_ge "depth_mm" _ _) as [e6|x6]; [by intros [= <-]|].
  destruct (optional_float_ge "thickness_mm" _ _) as [e7|x7]; [by intros [= <-]|].
  destruct (int_ge "quantity" 1 1 _) as [e8|x8]; [by intros [= <-]|].
  discriminate.
Qed.

Lemma refused_element (body : Element.raw) (field : string) (err : error_type) :
  (∀ errs, Element.validate body = inl errs → (field, err) ∈ errs) →
  (∀ p, Element.validate body ≠ inr p) →
  refused Element.validate post_elements body field err.
Proof.
  intros Hin Hno. destruct (Element.validate body) as [errs|p] eqn:Hv.
  - exists errs. split; [done|]. split; [by apply Hin|].
    intros w. unfold post_elements. by rewrite Hv.
  - by destruct (Hno p).
Qed.

(** X14: what [Element] refuses besides the bounds.  A body without
    [project_id] or without [element_type], a body whose [element_type] is
    not one of porte, placard, dressing, and a body whose [opening] is
    present and not one of poussant, tirant, fail validation with an error
    naming the field, and the handler is not entered: no store call. *)
Theorem element_validate_refuses (body : Element.raw) :
  (Element.raw_project_id body = None →
     refused Element.validate post_elements body "project_id" missing) ∧
  (Element.raw_element_type body = None →
     refused Element.validate post_elements body "element_type" missing) ∧
  (∀ s, Element.raw_element_type body = Some s →
     (∀ t, s ≠ Element.ElementType_str t) →
     refused Element.validate post_elements body "element_type" literal_error) ∧
  (∀ s, Element.raw_opening body = Some s →
     (∀ o, s ≠ Element.Opening_str o) →
     refused Element.validate post_elements body "opening" literal_error).
Proof.
  split_and!.
  - intros H. apply refused_element.
    + intros errs Hv. rewrite (element_validate_errors _ _ Hv), H. cbn. left.
    + intros p Hv. apply element_validate_inr in Hv as (H1 & _). congruence.
  - intros H. apply refused_element.
    + intros errs Hv. rewrite (element_validate_errors _ _ Hv), H.
      rewrite !elem_of_app. right. left. cbn. left.
    + intros p Hv. apply element_validate_inr in Hv as (_ & H2 & _). congruence.
  - intros s H Hs.
    assert (Element.ElementType_of_str s = None) as Hnone.
    { destruct (Element.ElementType_of_str s) as [t|] eqn:E; [|done].
      apply ElementType_of_str_Some in E. by destruct (Hs t). }
    apply refused_element.
    + intros errs Hv. rewrite (element_validate_errors _ _ Hv), H.
      rewrite !elem_of_app. right. left. cbn. unfold literal. rewrite Hnone. cbn. left.
    + intros p Hv. apply element_validate_inr in Hv as (_ & H2 & _).
      rewrite H in H2. injection H2 as ->. by destruct (Hs (Element.element_type p)).
  - intros s H Hs.
    assert (Element.Opening_of_str s = None) as Hnone.
    { destruct (Element.Opening_of_str s) as [o|] eqn:E; [|done].
      apply Opening_of_str_Some in E. by destruct (Hs o). }
    apply refused_element.
    + intros errs Hv. rewrite (element_validate_errors _ _ Hv), H.
      rewrite !elem_of_app. right. right. left. unfold literal. rewrite Hnone. cbn. left.
    + intros p Hv. apply element_validate_inr in Hv as (_ & _ & H3 & _).
      rewrite H in H3. destruct (Element.opening p) as [o|]; [|discriminate].
      injection H3 as ->. by destruct (Hs o).
Qed.

Lemma element_validate_refuses_witness :
  refused Element.validate post_elements
          (Element.Raw (Some pid0) None (Some "fenetre") None None None None None None None
                       None None None)
          "element_type" literal_error.
Proof.
  apply (proj1 (proj2 (proj2 (element_validate_refuses
           (Element.Raw (Some pid0) None (Some "fenetre") None None None None None None None
                        None None None)))) "fenetre").
  - reflexivity.
  - intros []; discriminate.
Defined.

Lemma refused_intro {R T} (validate : R → error_details + T)
    (post : R → M (option document)) (handler : T → M (option document))
    (body : R) (field : string) (err : error_type) (errs : error_details) :
  (∀ b, post b = match validate b with
                 | inl errs => raise (RequestValidationError errs)
                 | inr payload => handler payload
                 end) →
  validate body = inl errs → (field, err) ∈ errs →
  refused validate post body field err.
Proof.
  intros Hpost Hv Hin. exists errs. split; [done|]. split; [done|].
  intros w. by rewrite Hpost, Hv.
Qed.

(** X15: what [Project] accepts and refuses.  [name] is required and may be
    any string, the empty one included; [project_type] defaults to Autre when
    absent, must otherwise be one of the six listed types, and the other
    fields are copied.  A refused body is answered before the handler is
    entered: no store call. *)
Theorem project_validate_outcomes (body : Project.raw) :
  (∀ n, Project.raw_name body = Some n → Project.raw_project_type body = None →
     Project.validate body
     = inr (Project.Make n Project.Autre (Project.raw_location body)
              (Project.raw_contact_name body) (Project.raw_contact_phone body)
              (Project.raw_photo_url body))) ∧
  (∀ n t, Project.raw_name body = Some n →
     Project.raw_project_type body = Some (Project.ProjectType_str t) →
     Project.validate body
     = inr (Project.Make n t (Project.raw_location body)
              (Project.raw_contact_name body) (Project.raw_contact_phone body)
              (Project.raw_photo_url body))) ∧
  (Project.raw_name body = None →
     refused Project.validate post_projects body "name" missing) ∧
  (∀ s, Project.raw_project_type body = Some s →
     (∀ t, s ≠ Project.ProjectType_str t) →
     refused Project.validate post_projects body "project_type" literal_error).
Proof.
  split_and!.
  - intros n Hn Ht. unfold Project.validate. by rewrite Hn, Ht.
  - intros n t Hn Ht. unfold Project.validate, literal. rewrite Hn, Ht.
    by rewrite (proj2 (ProjectType_of_str_Some _ _) eq_refl).
  - intros Hn.
    destruct (Project.validate body) as [errs|p] eqn:Hv.
    + apply (refused_intro _ _ create_project _ _ _ errs); [done|done|].
      unfold Project.validate in Hv. rewrite Hn in Hv. cbn [required] in Hv.
      destruct (match Project.raw_project_type body with None => _ | Some _ => _ end);
        injection Hv as <-; cbn; left.
    + unfold Project.validate in Hv. rewrite Hn in Hv. cbn [required] in Hv.
      by destruct (match Project.raw_project_type body with None => _ | Some _ => _ end).
  - intros s Hs Hno.
    assert (Project.ProjectType_of_str s = None) as Hnone.
    { destruct (Project.ProjectType_of_str s) as [t|] eqn:E; [|done].
      apply ProjectType_of_str_Some in E. by destruct (Hno t). }
    destruct (Project.validate body) as [errs|p] eqn:Hv.
    + apply (refused_intro _ _ create_project _ _ _ errs); [done|done|].
      unfold Project.validate, literal in Hv. rewrite Hs, Hnone in Hv.
      destruct (required "name" _); injection Hv as <-; cbn [errors_of];
        rewrite ?elem_of_app; [right|]; left.
    + unfold Project.validate, literal in Hv. rewrite Hs, Hnone in Hv.
      by destruct (required "name" _).
Qed.

Lemma project_validate_outcomes_witness :
  Project.validate (Project.Raw (Some "") (Some "École") None None None None)
  = inr (Project.Make "" Project.Ecole None None None None) ∧
  refused Project.validate post_projects
          (Project.Raw (Some "Tour A") (Some "Usine") None None None None)
          "project_type" literal_error.
Proof.
  split.
  - apply (proj1 (proj2 (project_validate_outcomes
             (Project.Raw (Some "") (Some "École") None None None None))) "" Project.Ecole);
      reflexivity.
  - apply (proj2 (proj2 (proj2 (project_validate_outcomes
             (Project.Raw (Some "Tour A") (Some "Usine") None None None None)))) "Usine").
    + reflexivity.
    + intros []; discriminate.
Defined.

(** X16: what [Building] accepts and refuses, and what is left to the
    handler.  [project_id] and [name] are required and may be any strings; a
    missing one is refused before the handler is entered, both being reported
    when both are missing.  The schema does not look at the form of
    [project_id]: a body whose [project_id] is one that [ObjectId.is_valid]
    rejects passes validation and is refused by the handler with 400, still
    before any store call. *)
Theorem building_validate_outcomes (body : Building.raw) :
  (∀ pid n, Building.raw_project_id body = Some pid → Building.raw_name body = Some n →
     Building.validate body = inr (Building.Make pid n (Building.raw_description body))) ∧
  (Building.raw_project_id body = None →
     refused Building.validate post_buildings body "project_id" missing) ∧
  (Building.raw_name body = None →
     refused Building.validate post_buildings body "name" missing) ∧
  (Building.raw_project_id body = None → Building.raw_name body = None →
     Building.validate body = inl [("project_id", missing); ("name", missing)]) ∧
  (∀ pid n w, Building.raw_project_id body = Some pid → Building.raw_name body = Some n →
     ObjectId.is_valid pid = false →
     post_buildings body w = (Raise (HTTPException 400 "Invalid project_id"), w)).
Proof.
  split_and!.
  - intros pid n Hp Hn. unfold Building.validate. by rewrite Hp, Hn.
  - intros Hp.
    apply (refused_intro _ _ create_building _ _ _
             (("project_id", missing)
              :: errors_of (required "name" (Building.raw_name body)))); [done| |left].
    unfold Building.validate. rewrite Hp. cbn [required].
    destruct (required "name" _); reflexivity.
  - intros Hn.
    apply (refused_intro _ _ create_building _ _ _
             (errors_of (required "project_id" (Building.raw_project_id body))
              ++ [("name", missing)])%list); [done| |].
    + unfold Building.validate. rewrite Hn. cbn [required].
      destruct (required "project_id" _); reflexivity.
    + apply elem_of_app. right. left.
  - intros Hp Hn. unfold Building.validate. by rewrite Hp, Hn.
  - intros pid n w Hp Hn Hv. unfold post_buildings, Building.validate.
    rewrite Hp, Hn. cbn [required]. unfold create_building. cbn [Building.project_id].
    by rewrite Hv.
Qed.

Lemma building_validate_outcomes_witness :
  post_buildings (Building.Raw (Some "42") (Some "") None) w1
  = (Raise (HTTPException 400 "Invalid project_id"), w1) ∧
  refused Building.validate post_buildings (Building.Raw (Some pid0) None None)
          "name" missing.
Proof.
  split.
  - apply (proj2 (proj2 (proj2 (proj2 (building_validate_outcomes
             (Building.Raw (Some "42") (Some "") None))))) "42" ""); reflexivity.
  - apply (proj1 (proj2 (proj2 (building_validate_outcomes
             (Building.Raw (Some pid0) None None))))). reflexivity.
Defined.

(** *** Reading again *)

Lemma get_project_db (project_id : string) (w w' : world) :
  db w' = db w → run (get_project project_id) w' = run (get_project project_id) w.
Proof.
  intros Hdb. unfold run.
  destruct (ObjectId.is_valid project_id) eqn:Hv;
    [|by rewrite !(get_project_invalid _ _ Hv)].
  destruct (proj1 (is_valid_parse _) Hv) as [oid Hoid].
  pose proof (lookup_id_db w w' "project" oid Hdb) as Hl.
  destruct (lookup_id w "project" oid) as [d|] eqn:Hw.
  - by rewrite (get_project_found _ _ _ _ Hoid Hl), (get_project_found _ _ _ _ Hoid Hw).
  - by rewrite (get_project_missing _ _ _ Hoid Hl), (get_project_missing _ _ _ Hoid Hw).
Qed.

(** X17: reading a project again gives the same answer.  The answer of
    [get_project] depends on the collections only, so it is the same after
    any of the reading handlers has run, itself included, whatever that
    handler answered. *)
Theorem get_project_repeatable (float_repr : spec_float → string)
    (project_id : string) (w : world) :
  (∀ pid', run (get_project project_id) (exec (get_project pid') w)
           = run (get_project project_id) w) ∧
  run (get_project project_id) (exec list_projects w) = run (get_project project_id) w ∧
  (∀ pid', run (get_project project_id) (exec (list_buildings pid') w)
           = run (get_project project_id) w) ∧
  (∀ pid' bid, run (get_project project_id) (exec (list_elements pid' bid) w)
               = run (get_project project_id) w) ∧
  (∀ pid', run (get_project project_id) (exec (project_summary pid') w)
           = run (get_project project_id) w) ∧
  (∀ pid', run (get_project project_id) (exec (export_csv float_repr pid') w)
           = run (get_project project_id) w).
Proof.
  split_and!; intros; apply get_project_db;
    [apply read_only_get_project|apply read_only_list_projects
    |apply read_only_list_buildings|apply read_only_list_elements
    |apply read_only_project_summary|apply read_only_export_csv].
Qed.

(** *** Creating a building, then listing *)

Lemma building_dump_project_id (b : Building.t) :
  Building.model_dump b !! "project_id" = Some (VStr (Building.project_id b)).
Proof. unfold Building.model_dump. apply lookup_insert_eq. Qed.

(** X18: a created building appears in the listing of its project.  When
    [create_building] succeeds, [list_buildings] for the building's
    [project_id] afterwards answers with the listing before followed by the
    new document, serialized, and the listing of every other project is
    unchanged. *)
Theorem create_building_then_list (payload : Building.t) (w w' : world)
    (r : option document) :
  create_building payload w = (Ok r, w') →
  let pid := Building.project_id payload in
  let new := <["_id" := VObjectId (next_oid w)]> (Building.model_dump payload) in
  (∃ before,
     run (list_buildings pid) w = Ok before ∧
     run (list_buildings pid) w' = Ok (before ++ [serialize_doc (Some new)])%list) ∧
  (∀ pid', pid' ≠ pid → run (list_buildings pid') w' = run (list_buildings pid') w).
Proof.
  intros Hrun pid new.
  destruct (create_building_appended _ _ _ _ Hrun) as [Hv (Hc & _ & _)].
  assert (∀ p, filter (λ d, d !! "project_id" = Some (VStr p)) (collection w' "building")
               = (filter (λ d, d !! "project_id" = Some (VStr p)) (collection w "building")
                  ++ if decide (p = pid) then [new] else [])%list) as Hf.
  { intros p. rewrite Hc, filter_app. f_equal. rewrite filter_cons, filter_nil.
    unfold new. rewrite lookup_insert_ne by done. rewrite building_dump_project_id.
    destruct (decide (p = pid)) as [->|Hne].
    - by rewrite decide_True.
    - rewrite decide_False; [done|]. unfold pid in Hne. congruence. }
  split.
  - eexists. unfold run.
    rewrite (list_buildings_run pid w Hv).
    rewrite (list_buildings_run pid w' Hv). cbn [fst].
    split; [reflexivity|]. f_equal. rewrite Hf, decide_True by done.
    unfold serialize_all. by rewrite map_app.
  - intros pid' Hne. unfold run. destruct (ObjectId.is_valid pid') eqn:Hv'.
    + rewrite (list_buildings_run pid' w Hv').
      rewrite (list_buildings_run pid' w' Hv'). cbn [fst].
      rewrite Hf, decide_False by done. by rewrite app_nil_r.
    + rewrite (list_buildings_refused pid' w Hv').
      by rewrite (list_buildings_refused pid' w' Hv').
Qed.

Lemma create_building_then_list_witness :
  ∃ r w' before,
    create_building (Building.Make pid0 "Bloc C" None) w_buildings = (Ok r, w') ∧
    run (list_buildings pid0) w_buildings = Ok before ∧
    run (list_buildings pid0) w'
    = Ok (before ++ [serialize_doc
                       (Some (<["_id" := VObjectId (next_oid w_buildings)]>
                                (Building.model_dump (Building.Make pid0 "Bloc C" None))))])%list.
Proof.
  assert (is_Ok (run (create_building (Building.Make pid0 "Bloc C" None)) w_buildings) = true)
    as Hok by (vm_compute; reflexivity).
  unfold run in Hok.
  destruct (create_building (Building.Make pid0 "Bloc C" None) w_buildings)
    as [[r|e] w'] eqn:Hrun; [|discriminate Hok].
  destruct (create_building_then_list _ _ _ _ Hrun) as [(before & Hb & Ha) _].
  exists r, w', before. split; [reflexivity|]. split; [exact Hb|exact Ha].
Defined.

(** *** The CSV text of stored elements *)

Lemma string_app_assoc (a b c : string) : (a +:+ b) +:+ c = a +:+ (b +:+ c).
Proof.
  induction a as [|x a IH]; [reflexivity|].
  change (String x ((a +:+ b) +:+ c) = String x (a +:+ (b +:+ c))). by rewrite IH.
Qed.

Lemma string_app_nil_r (a : string) : a +:+ "" = a.
Proof.
  induction a as [|x a IH]; [reflexivity|].
  change (String x (a +:+ "") = String x a). by rewrite IH.
Qed.

Lemma element_dump_notes_text (e : Element.t) (o : ObjectId.t) :
  dict_get (<["_id" := VObjectId o]> (Element.model_dump e)) "notes_text"
  = opt_str (Element.notes_text e).
Proof.
  unfold dict_get, Element.model_dump. do 11 (rewrite lookup_insert_ne by done).
  by rewrite lookup_insert_eq.
Qed.

Lemma notes_cell_stored (e : Element.t) (o : ObjectId.t) (w : world) :
  notes_cell (<["_id" := VObjectId o]> (Element.model_dump e)) w
  = (Ok (VStr (match Element.notes_text e with
               | Some s => replace_newlines s
               | None => ""
               end)), w).
Proof.
  unfold notes_cell. cbv zeta. rewrite element_dump_notes_text.
  destruct (Element.notes_text e) as [s|]; [|reflexivity].
  cbn [opt_str truthy]. destruct (String.eqb s "") eqn:E; [|reflexivity].
  apply String.eqb_eq in E. by subst s.
Qed.

Lemma write_rows_stored (float_repr : spec_float → string) (elems : list document)
    (w : world) :
  (∀ d, d ∈ elems → ∃ e o, d = <["_id" := VObjectId o]> (Element.model_dump e)) →
  ∃ rows, ∀ out, write_rows float_repr elems out w = (Ok (out +:+ rows), w).
Proof.
  induction elems as [|d elems IH]; intros Hall.
  - exists "". intros out. cbn [write_rows]. by rewrite string_app_nil_r.
  - destruct (Hall d) as (e & o & ->); [left|].
    destruct IH as [rows Hrows]; [intros d' Hd'; apply Hall; by right|].
    eexists. intros out. cbn [write_rows].
    erewrite bind_Ok; cycle 1.
    { unfold element_row. erewrite bind_Ok; [|apply notes_cell_stored]. reflexivity. }
    rewrite Hrows, string_app_assoc. reflexivity.
Qed.

(** X19: the CSV text can always be built from elements stored by
    [create_element]: for documents that are dumped Element payloads under an
    identifier, writing the rows raises nothing and touches nothing, and the
    text is the header line followed by the rows. *)
Theorem write_csv_stored_elements (float_repr : spec_float → string)
    (elems : list document) (w : world) :
  (∀ d, d ∈ elems → ∃ e o, d = <["_id" := VObjectId o]> (Element.model_dump e)) →
  ∃ rows, write_csv float_repr elems w = (Ok (header_line +:+ rows), w).
Proof.
  intros Hall. destruct (write_rows_stored float_repr elems w Hall) as [rows Hrows].
  exists rows. unfold write_csv. by rewrite Hrows, writerow_header.
Qed.

Lemma write_csv_stored_elements_witness :
  ∃ rows, write_csv no_float_repr
            [<["_id" := VObjectId 5%N]>
               (Element.model_dump (sample_element None Element.porte (Some "simple") 2))]
            w1
          = (Ok (header_line +:+ rows), w1).
Proof.
  apply (write_csv_stored_elements no_float_repr).
  intros d Hd. apply list_elem_of_singleton in Hd. subst d. by do 2 eexists.
Defined.
